(** * tox-current-env: the plugin hooks of [src/tox_current_env/hooks.py]

    A shallow embedding of the hook implementations and of the part of the
    operating system they talk to (existence tests, recursive removal,
    directory creation, links, a print sink), followed by the properties of
    the environment state machine. *)

From Stdlib Require Import Ascii String.
From stdpp Require Import base option list strings gmap fin_maps pretty sorting.

(** ** Paths and the file system

    An absolute path is the list of its components, so [os.path.dirname]
    drops the last component and [os.path.join p name] appends one.  The
    file system is a finite map from paths to nodes; the root directory
    (the empty path) is always present.  Directory components are looked up
    as written: only a link in the last position is followed.  A path that
    is reached through a link to a directory is therefore found only when
    it is listed under the very name it is reached by, entries are created
    and removed under the name they are given, and removal is never
    refused.  The statements that depend on the shape of the tree are made
    for a [plain_tree] below, where no path passes through a link and the
    name of an entry is the one place it is stored at. *)

Abbreviation path := (list string).

Inductive node :=
| File
| Dir
| Symlink (target : path)      (* made by os.symlink *)
| Junction (target : path).    (* made by [mklink /J] *)

Global Instance node_eq_dec : EqDecision node.
Proof. solve_decision. Defined.

Abbreviation filesystem := (gmap path node).

Definition dirname (p : path) : path := removelast p.

Definition join (p : path) (name : string) : path := p ++ [name].

Definition node_at (fs : filesystem) (p : path) : option node :=
  match p with
  | [] => Some Dir
  | _ => fs !! p
  end.

(** The kernel gives up after [MAXSYMLINKS] links. *)
Definition MAXSYMLINKS : nat := 40.

Fixpoint exists_within (hops : nat) (fs : filesystem) (p : path) : bool :=
  match node_at fs p with
  | None => false
  | Some File | Some Dir => true
  | Some (Symlink t) | Some (Junction t) =>
      match hops with
      | O => false
      | S h => exists_within h fs t
      end
  end.

Global Arguments exists_within : simpl never.

(** [os.path.exists]: true when the path resolves, false for a missing path
    and for a link that leads nowhere. *)
Definition path_exists (fs : filesystem) (p : path) : bool :=
  exists_within MAXSYMLINKS fs p.

(** What [shutil.rmtree(root, ignore_errors=True)] leaves behind: a
    directory goes with everything below it (no entry resists removal, for
    want of a permission say); on a missing path, a file or a link the call
    fails, the failure is ignored and nothing changes. *)
Definition rmtree_fs (root : path) (fs : filesystem) : filesystem :=
  match node_at fs root with
  | Some Dir => filter (λ kv, ¬ root `prefix_of` kv.1) fs
  | _ => fs
  end.

(** Every entry sits in a directory. *)
Definition tree_ok (fs : filesystem) : Prop :=
  map_Forall (λ p _, node_at fs (dirname p) = Some Dir) fs.

(** ** Host data *)

Inductive sink := Stdout | FileSink (name : string).

Global Instance sink_eq_dec : EqDecision sink.
Proof. solve_decision. Defined.

(** [sys.version_info], and [python_info.version_info] of a target: the
    five-element tuple (major, minor, micro, releaselevel, serial). *)
Record version_info_t := VersionInfo {
  major : nat;
  minor : nat;
  micro : nat;
  releaselevel : string;
  serial : nat
}.

(** [version_info[:2]] *)
Definition first2 (v : version_info_t) : nat * nat := (major v, minor v).

(** [str] of the tuple, as an f-string prints it. *)
Definition repr_version (v : version_info_t) : string :=
  "(" +:+ pretty (major v) +:+ ", " +:+ pretty (minor v) +:+ ", "
      +:+ pretty (micro v) +:+ ", '" +:+ releaselevel v +:+ "', "
      +:+ pretty (serial v) +:+ ")".

Record options := Options {
  current_env : bool;
  print_deps_only : bool;
  print_deps_to : option sink;    (* None, or the opened file *)
  recreate : bool
}.

(** The value of [whitelist_externals]: the host keeps a list of lines, the
    plugin stores a plain string. *)
Inductive externals :=
| ExtLines (l : list string)
| ExtStr (s : string).

Inductive bindir_name := Bin | Scripts.
Inductive exe_name := Python | Jython.

Definition bindir_str (b : bindir_name) : string :=
  match b with Bin => "bin" | Scripts => "Scripts" end.

Definition exe_str (e : exe_name) : string :=
  match e with Python => "python" | Jython => "jython" end.

Record envconfig_t := EnvConfig {
  envdir : path;
  envbindir : bindir_name;
  envexe : exe_name;
  basepython : string;
  python_version_info : option version_info_t;   (* python_info.version_info *)
  whitelist_externals : externals
}.

(** Host accessor [envconfig.get_envpython()]: the interpreter of a target
    is [envdir/<bin or Scripts>/<python or jython>]. *)
Definition get_envpython (e : envconfig_t) : path :=
  envdir e ++ [bindir_str (envbindir e); exe_str (envexe e)].

Record config_t := Config {
  config_option : options;    (* config.option *)
  skipsdist : bool;
  envconfigs : list (string * envconfig_t)   (* dict, in insertion order *)
}.

(** A target environment.  [venv_config] is [venv.envconfig.config], and
    [resolved_dependencies] is what [venv.get_resolved_dependencies()]
    returns, each specifier already as its [str]: the host call is taken
    to return, an exception of the resolver is not covered. *)
Record venv_t := Venv {
  envconfig : envconfig_t;
  venv_config : config_t;
  resolved_dependencies : list string
}.

Record session_t := Session {
  venv_dict : list (string * venv_t)    (* dict, in insertion order *)
}.

(** What the plugin reads from the running interpreter and from the host
    package: [sys.executable], [sys.version_info], [sys.platform], and
    whether [tox.hookspecs] has a [tox_cleanup] attribute. *)
Record runtime := Runtime {
  sys_executable : path;
  sys_version_info : version_info_t;
  sys_platform : string;
  has_tox_cleanup : bool
}.

(** ** Exceptions, hook results, and the effect monad *)

Inductive exception :=
| ConfigError (msg : string)
| InterpreterNotFound (msg : string)
| InterpreterMismatch (msg : string)     (* subclass of InterpreterNotFound *)
| FileExistsError (p : path)
| FileNotFoundError (p : path)
| NotADirectoryError (p : path)
| CalledProcessError (link target : path).

(** A hook returns [True] (handled, the host skips its default) or [None]. *)
Inductive hook_result := Handled | NotHandled.

(** The world outside the interpreter: the file system, the text written to
    each sink in order, and the warnings issued. *)
Record world := World {
  files : filesystem;
  written : list (sink * string);
  warned : list string
}.

Definition M (A : Type) : Type := world → (exception + A) * world.

Global Instance M_ret : MRet M := λ A a w, (inr a, w).

Global Instance M_bind : MBind M := λ A B f m w,
  match m w with
  | (inl e, w') => (inl e, w')
  | (inr a, w') => f a w'
  end.

Definition raise {A} (e : exception) : M A := λ w, (inl e, w).

Definition get_fs : M filesystem := λ w, (inr (files w), w).

Definition put_fs (f : filesystem) : M unit :=
  λ w, (inr tt, World f (written w) (warned w)).

(** [try: m  except FileExistsError: pass] *)
Definition ignoring_file_exists (m : M unit) : M unit := λ w,
  match m w with
  | (inl (FileExistsError _), w') => (inr tt, w')
  | r => r
  end.

(** ** The operating-system calls the plugin makes *)

Definition nl : string := String "010"%char EmptyString.

(** [os.mkdir] *)
Definition mkdir (p : path) : M unit :=
  f ← get_fs;
  match node_at f p with
  | Some _ => raise (FileExistsError p)
  | None =>
      match node_at f (dirname p) with
      | Some Dir => put_fs (<[p := Dir]> f)
      | Some _ => raise (NotADirectoryError p)
      | None => raise (FileNotFoundError p)
      end
  end.

(** [os.makedirs(name)] with [exist_ok=False], on the reversed path: when
    the parent does not exist it is made first, a [FileExistsError] from
    there is passed over, and then the last component is made. *)
Fixpoint makedirs_rev (rname : list string) : M unit :=
  match rname with
  | [] => mkdir []
  | tail :: rhead =>
      let head := reverse rhead in
      f ← get_fs;
      (if negb (path_exists f head)
       then ignoring_file_exists (makedirs_rev rhead)
       else mret tt);;
      mkdir (join head tail)
  end.

Definition makedirs (name : path) : M unit := makedirs_rev (reverse name).

(** [os.symlink(target, link)] *)
Definition symlink (target link : path) : M unit :=
  f ← get_fs;
  match node_at f link with
  | Some _ => raise (FileExistsError link)
  | None =>
      match node_at f (dirname link) with
      | Some Dir => put_fs (<[link := Symlink target]> f)
      | Some _ => raise (NotADirectoryError link)
      | None => raise (FileNotFoundError link)
      end
  end.

(** [subprocess.check_call] of [mklink /J link target]: the
    junction is made under the same conditions as a link, and a failing
    command raises [CalledProcessError]. *)
Definition mklink_junction (link target : path) : M unit :=
  f ← get_fs;
  match node_at f link, node_at f (dirname link) with
  | None, Some Dir => put_fs (<[link := Junction target]> f)
  | _, _ => raise (CalledProcessError link target)
  end.

(** [shutil.rmtree(root, ignore_errors=True)] *)
Definition rmtree_ignore_errors (root : path) : M unit :=
  f ← get_fs; put_fs (rmtree_fs root f).

(** [print] of the unpacked items with a newline separator: the items
    joined by newlines, then the final newline. *)
Definition print_text (items : list string) : string :=
  String.concat nl items +:+ nl.

Definition print_lines (items : list string) (out : sink) : M unit :=
  λ w, (inr tt, World (files w) (written w ++ [(out, print_text items)]) (warned w)).

(** [warnings.warn(msg, DeprecationWarning)], with no warning filter that
    turns the warning into an exception. *)
Definition warn (msg : string) : M unit :=
  λ w, (inr tt, World (files w) (written w) (warned w ++ [msg])).

(** ** The plugin: [hooks.py] *)

(** Truth value of [config.option.print_deps_to]: [None] is false, an open
    file is true. *)
Definition truthy (o : option sink) : bool :=
  match o with Some _ => true | None => false end.

Definition with_print_deps_to (o : options) (s : option sink) : options :=
  Options (current_env o) (print_deps_only o) s (recreate o).

Definition with_option (c : config_t) (o : options) : config_t :=
  Config o (skipsdist c) (envconfigs c).

Definition allow_all_externals (e : envconfig_t) : envconfig_t :=
  EnvConfig (envdir e) (envbindir e) (envexe e) (basepython e)
            (python_version_info e) (ExtStr "*").

Definition msg_print_deps_only_deprecated : string :=
  "--print-deps-only is deprecated; use `--print-deps-to -`".

Definition msg_print_deps_conflict : string :=
  "--print-deps-only cannot be used together " +:+ "with --print-deps-to".

Definition tox_configure (config : config_t) : M config_t :=
  config ←
    (if print_deps_only (config_option config) then
       warn msg_print_deps_only_deprecated;;
       if negb (truthy (print_deps_to (config_option config))) then
         mret (with_option config
                 (with_print_deps_to (config_option config) (Some Stdout)))
       else
         raise (ConfigError msg_print_deps_conflict)
     else mret config);
  if current_env (config_option config)
     || truthy (print_deps_to (config_option config)) then
    mret (Config (config_option config) true
            (map (λ kv, (kv.1, allow_all_externals kv.2)) (envconfigs config)))
  else mret config.

Definition _python_activate_exists (f : filesystem) (venv : venv_t) : bool * bool :=
  let python := get_envpython (envconfig venv) in
  let bindir := dirname python in
  let activate := join bindir "activate" in
  (path_exists f python, path_exists f activate).

Definition is_current_env_link (f : filesystem) (venv : venv_t) : bool :=
  let '(python, activate) := _python_activate_exists f venv in
  python && negb activate.

Definition is_proper_venv (f : filesystem) (venv : venv_t) : bool :=
  let '(python, activate) := _python_activate_exists f venv in
  python && activate.

Definition is_any_env (f : filesystem) (venv : venv_t) : bool :=
  let '(python, activate) := _python_activate_exists f venv in
  python.

Definition rm_venv (venv : venv_t) : M unit :=
  let link := get_envpython (envconfig venv) in
  rmtree_ignore_errors (dirname (dirname link)).

Definition msg_cleanup_unfinished : string :=
  "Looks like previous --current-env or --print-deps-to tox run didn't finish the cleanup. "
  +:+ "Run tox run with --recreate (-r) or manually remove the environment in .tox.".

Definition msg_regular_after_current_env : string :=
  "Regular tox run after --current-env or --print-deps-to tox run is not supported without --recreate (-r).".

Definition msg_current_env_after_regular : string :=
  "--current-env after regular tox run is not supported without --recreate (-r).".

Definition unsupported_raise (rt : runtime) (config : config_t) (venv : venv_t) : M unit :=
  if recreate (config_option config) then mret tt
  else
    let regular := negb (current_env (config_option config)
                         || truthy (print_deps_to (config_option config))) in
    f ← get_fs;
    if regular && is_current_env_link f venv then
      if has_tox_cleanup rt then raise (ConfigError msg_cleanup_unfinished)
      else raise (ConfigError msg_regular_after_current_env)
    else if current_env (config_option config) && is_proper_venv f venv then
      raise (ConfigError msg_current_env_after_regular)
    else mret tt.

Definition msg_versions_do_not_match (current requested : version_info_t) : string :=
  ("tox_current_env: interpreter versions do not match:" +:+ nl)
  +:+ ("    in current env: " +:+ repr_version current +:+ nl)
  +:+ ("    requested: " +:+ repr_version requested).

(** The block under [if create_fake_env:] of [tox_testenv_create]. *)
Definition make_fake_env (rt : runtime) (venv : venv_t) : M hook_result :=
  let link := get_envpython (envconfig venv) in
  let target := sys_executable rt in
  rm_venv venv;;
  makedirs (dirname link);;
  (if bool_decide (sys_platform rt = "win32")
   then mklink_junction link target
   else symlink target link);;
  mret Handled.

Definition tox_testenv_create (rt : runtime) (venv : venv_t) : M hook_result :=
  let config := venv_config venv in
  let check_version := current_env (config_option config) in
  f ← get_fs;
  if truthy (print_deps_to (config_option config)) && is_any_env f venv then
    mret Handled
  else
    let create_fake_env :=
      if truthy (print_deps_to (config_option config)) then true
      else current_env (config_option config) in
    (if check_version then
       match python_version_info (envconfig venv) with
       | None => raise (InterpreterNotFound (basepython (envconfig venv)))
       | Some version_info =>
           if bool_decide (first2 version_info ≠ first2 (sys_version_info rt)) then
             raise (InterpreterMismatch
                      (msg_versions_do_not_match (sys_version_info rt) version_info))
           else mret tt
       end
     else mret tt);;
    if create_fake_env then make_fake_env rt venv
    else
      f ← get_fs;
      (if negb (is_proper_venv f venv) then rm_venv venv else mret tt);;
      mret NotHandled.

Definition tox_package (rt : runtime) (session : session_t) (venv : venv_t) : M hook_result :=
  let config := venv_config venv in
  unsupported_raise rt config venv;;
  mret NotHandled.

Definition tox_testenv_install_deps (rt : runtime) (venv : venv_t) : M hook_result :=
  let config := venv_config venv in
  unsupported_raise rt config venv;;
  if current_env (config_option config)
     || truthy (print_deps_to (config_option config)) then
    mret Handled
  else mret NotHandled.

Definition tox_runtest (rt : runtime) (venv : venv_t) : M hook_result :=
  let config := venv_config venv in
  unsupported_raise rt config venv;;
  match print_deps_to (config_option config) with
  | Some out =>
      print_lines (resolved_dependencies venv) out;;
      mret Handled
  | None => mret NotHandled
  end.

(** The loop body of [tox_cleanup], then the loop over
    [session.venv_dict.values()]. *)
Definition cleanup_one (venv : venv_t) : M unit :=
  f ← get_fs;
  if is_current_env_link f venv then rm_venv venv else mret tt.

Fixpoint cleanup_loop (venvs : list venv_t) : M unit :=
  match venvs with
  | [] => mret tt
  | venv :: rest => cleanup_one venv;; cleanup_loop rest
  end.

Definition tox_cleanup (session : session_t) : M unit :=
  cleanup_loop (map snd (venv_dict session)).

(** ** The vocabulary of the specification, read off the code *)

Inductive RunMode := Regular | CurrentEnv | PrintDeps.

Inductive EnvironmentShape := Absent | Redirect | Materialized.

Global Instance RunMode_eq_dec : EqDecision RunMode.
Proof. solve_decision. Defined.

Global Instance EnvironmentShape_eq_dec : EqDecision EnvironmentShape.
Proof. solve_decision. Defined.

(** The shape of a target, from the three predicates of the plugin. *)
Definition inspect (f : filesystem) (venv : venv_t) : EnvironmentShape :=
  if is_proper_venv f venv then Materialized
  else if is_current_env_link f venv then Redirect
  else Absent.

(** The mode of a run as the staleness check sees it: current-env when the
    flag is set, print-deps when only a sink is given, regular otherwise. *)
Definition run_mode (o : options) : RunMode :=
  if current_env o then CurrentEnv
  else if truthy (print_deps_to o) then PrintDeps
  else Regular.

(** The activation script of a target, next to its interpreter. *)
Definition activate_path (e : envconfig_t) : path :=
  join (dirname (get_envpython e)) "activate".

(** ** Conditions on the file system used in the statements *)

Definition prefixes (p : path) : list path :=
  (λ n, take n p) <$> seq 0 (S (length p)).

Definition dir_or_missing (f : filesystem) (q : path) : Prop :=
  node_at f q = None ∨ node_at f q = Some Dir.

(** Nothing but directories on the way down to [p], and at [p] itself. *)
Definition dirs_or_missing (f : filesystem) (p : path) : Prop :=
  Forall (dir_or_missing f) (prefixes p).

Global Instance dir_or_missing_dec (f : filesystem) (q : path) : Decision (dir_or_missing f q).
Proof. unfold dir_or_missing. apply _. Defined.

Global Instance dirs_or_missing_dec (f : filesystem) (p : path) : Decision (dirs_or_missing f p).
Proof. unfold dirs_or_missing. apply _. Defined.

Global Instance tree_ok_dec (f : filesystem) : Decision (tree_ok f).
Proof. unfold tree_ok. apply _. Defined.

(** [p] leads to a directory: it is one, or a link whose target leads to
    one. *)
Fixpoint dir_within (hops : nat) (fs : filesystem) (p : path) : bool :=
  match node_at fs p with
  | Some Dir => true
  | Some (Symlink t) | Some (Junction t) =>
      match hops with
      | O => false
      | S h => dir_within h fs t
      end
  | _ => false
  end.

Global Arguments dir_within : simpl never.

(** A node that is not a link to a directory. *)
Definition no_dir_link (f : filesystem) (n : node) : Prop :=
  match n with
  | Symlink t | Junction t => dir_within MAXSYMLINKS f t = false
  | _ => True
  end.

Global Instance no_dir_link_dec (f : filesystem) (n : node) : Decision (no_dir_link f n).
Proof. destruct n; simpl; apply _. Defined.

(** No path passes through a link: every entry sits in a directory, and no
    link leads to a directory.  In such a file system a path that does not
    resolve as written does not resolve at all, and the entry of a path is
    stored under that path. *)
Definition plain_tree (f : filesystem) : Prop :=
  tree_ok f ∧ map_Forall (λ _ n, no_dir_link f n) f.

Global Instance plain_tree_dec (f : filesystem) : Decision (plain_tree f).
Proof. unfold plain_tree. apply _. Defined.


Global Instance version_info_eq_dec : EqDecision version_info_t.
Proof. solve_decision. Defined.
Global Instance options_eq_dec : EqDecision options.
Proof. solve_decision. Defined.
Global Instance externals_eq_dec : EqDecision externals.
Proof. solve_decision. Defined.
Global Instance bindir_name_eq_dec : EqDecision bindir_name.
Proof. solve_decision. Defined.
Global Instance exe_name_eq_dec : EqDecision exe_name.
Proof. solve_decision. Defined.
Global Instance envconfig_eq_dec : EqDecision envconfig_t.
Proof. solve_decision. Defined.
Global Instance config_eq_dec : EqDecision config_t.
Proof. solve_decision. Defined.
Global Instance venv_eq_dec : EqDecision venv_t.
Proof. solve_decision. Defined.

(** The targets of a session have separate environment directories: none
    lies at or below the directory of another target. *)
Definition roots_disjoint (venvs : list venv_t) : Prop :=
  Forall (λ u, Forall (λ v,
    envdir (envconfig u) `prefix_of` envdir (envconfig v) → u = v) venvs) venvs.

(** A link that leads into the environment of a redirect target lies in
    that environment: nothing outside depends on a redirect. *)
Definition link_ok (venvs : list venv_t) (f : filesystem) (p : path) (n : node) : Prop :=
  match n with
  | Symlink t | Junction t =>
      Forall (λ u, is_current_env_link f u = true →
                   envdir (envconfig u) `prefix_of` t →
                   envdir (envconfig u) `prefix_of` p) venvs
  | _ => True
  end.

Global Instance link_ok_dec (venvs : list venv_t) (f : filesystem) (p : path) (n : node) :
  Decision (link_ok venvs f p n).
Proof. destruct n; simpl; apply _. Defined.

Definition links_confined (venvs : list venv_t) (f : filesystem) : Prop :=
  map_Forall (link_ok venvs f) f.

Global Instance roots_disjoint_dec (venvs : list venv_t) : Decision (roots_disjoint venvs).
Proof. unfold roots_disjoint. apply _. Defined.

Global Instance links_confined_dec (venvs : list venv_t) (f : filesystem) : Decision (links_confined venvs f).
Proof. unfold links_confined. apply _. Defined.

(** The staleness table of the specification: a regular run over a
    redirect, and a current-env run over a materialized environment. *)
Definition stale (m : RunMode) (s : EnvironmentShape) : bool :=
  match m, s with
  | Regular, Redirect => true
  | CurrentEnv, Materialized => true
  | _, _ => false
  end.

Definition stale_message (rt : runtime) (m : RunMode) : string :=
  match m with
  | Regular => if has_tox_cleanup rt then msg_cleanup_unfinished
               else msg_regular_after_current_env
  | _ => msg_current_env_after_regular
  end.

(** The shape as a function of the two existence tests alone. *)
Definition shape_of (python activate : bool) : EnvironmentShape :=
  match python, activate with
  | false, _ => Absent
  | true, false => Redirect
  | true, true => Materialized
  end.


(** The same target in a run without the print-deps sink. *)
Definition without_sink (venv : venv_t) : venv_t :=
  Venv (envconfig venv)
       (with_option (venv_config venv)
          (with_print_deps_to (config_option (venv_config venv)) None))
       (resolved_dependencies venv).


(** ** Sample data: one project directory with targets under [.tox] *)

Definition v3_9 : version_info_t := VersionInfo 3 9 1 "final" 0.
Definition v3_11 : version_info_t := VersionInfo 3 11 0 "final" 0.

Definition host_python : path := ["usr"; "bin"; "python3"].

Definition rt_linux : runtime := Runtime host_python v3_9 "linux" true.

Definition sample_env (name : string) (requested : version_info_t) : envconfig_t :=
  EnvConfig ["proj"; ".tox"; name] Bin Python "python3" (Some requested) (ExtLines []).

Definition sample_venv (o : options) (name : string) (requested : version_info_t) : venv_t :=
  Venv (sample_env name requested)
       (Config o false [(name, sample_env name requested)])
       ["pytest"; "six>=1.0"].

Definition opts_regular : options := Options false false None false.
Definition opts_current_env : options := Options true false None false.
Definition opts_print_deps : options := Options false false (Some Stdout) false.
Definition opts_both : options := Options true false (Some Stdout) false.

Definition base_entries : list (path * node) :=
  [(["usr"], Dir); (["usr"; "bin"], Dir); (host_python, File);
   (["proj"], Dir); (["proj"; ".tox"], Dir)].

Definition redirect_entries (name : string) : list (path * node) :=
  [(["proj"; ".tox"; name], Dir);
   (["proj"; ".tox"; name; "bin"], Dir);
   (["proj"; ".tox"; name; "bin"; "python"], Symlink host_python)].

Definition materialized_entries (name : string) : list (path * node) :=
  [(["proj"; ".tox"; name], Dir);
   (["proj"; ".tox"; name; "bin"], Dir);
   (["proj"; ".tox"; name; "bin"; "python"], Symlink host_python);
   (["proj"; ".tox"; name; "bin"; "activate"], File)].

Definition world_of (entries : list (path * node)) : world :=
  World (list_to_map entries) [] [].

Definition w_absent : world := world_of base_entries.
Definition w_redirect : world := world_of (base_entries ++ redirect_entries "py39").
Definition w_materialized : world :=
  world_of (base_entries ++ materialized_entries "py39").

Definition sample_session : session_t :=
  Session [("py39", sample_venv opts_current_env "py39" v3_9);
           ("py310", sample_venv opts_current_env "py310" v3_9)].

(** ** The report hook: [tox_runenvreport] *)

(** What the hook reads of an installed distribution: the result of
    [d.metadata.get("name")] and [d.version], each a string or [None]. *)
Record distribution := Distribution {
  dist_name : option string;
  dist_version : option string
}.

Global Instance distribution_eq_dec : EqDecision distribution.
Proof. solve_decision. Defined.

(** How [str.format] prints a field. *)
Definition format_field (o : option string) : string :=
  match o with Some s => s | None => "None" end.

(** ["{}=={}".format(name, version)] *)
Definition format_dist (d : distribution) : string :=
  format_field (dist_name d) +:+ "==" +:+ format_field (dist_version d).

(** [key(a) < key(b)], the one comparison [sorted] makes; it raises
    [TypeError] ([None] here) unless both names are strings.  Strings
    compare by code point, which on UTF-8 bytes is the byte-wise order. *)
Definition name_lt (a b : distribution) : option bool :=
  match dist_name a, dist_name b with
  | Some x, Some y => Some (String.ltb x y)
  | _, _ => None
  end.

(** [sorted(dists, key=name)] as a stable insertion sort: an element goes
    before the first one that is not smaller than it.  [sorted] is stable,
    so on names that compare it returns this very list; and a sort of two or
    more keys compares every key, so it raises when this one does. *)
Fixpoint insert_dist (d : distribution) (l : list distribution) : option (list distribution) :=
  match l with
  | [] => Some [d]
  | e :: rest =>
      match name_lt e d with
      | None => None
      | Some true =>
          match insert_dist d rest with
          | None => None
          | Some r => Some (e :: r)
          end
      | Some false => Some (d :: e :: rest)
      end
  end.

Fixpoint sorted_by_name (l : list distribution) : option (list distribution) :=
  match l with
  | [] => Some []
  | d :: rest =>
      match sorted_by_name rest with
      | None => None
      | Some r => insert_dist d r
      end
  end.

(** What the hook returns: [None], the lines of the generator, or the
    [TypeError] of the sort. *)
Inductive report :=
| ReportNotHandled
| ReportLines (lines : list string)
| ReportTypeError.

(** [distributions] is the result of [importlib_metadata.distributions()]. *)
Definition tox_runenvreport (distributions : list distribution) (venv : venv_t) : report :=
  let option := config_option (venv_config venv) in
  if negb (current_env option || print_deps_only option) then ReportNotHandled
  else
    match sorted_by_name distributions with
    | None => ReportTypeError
    | Some sorted => ReportLines (map format_dist sorted)
    end.

(** Order of two distributions by name, both names being strings. *)
Definition name_le (a b : distribution) : Prop :=
  ∃ x y, dist_name a = Some x ∧ dist_name b = Some y ∧ String.leb x y = true.

(** Every name is a string. *)
Definition all_named (l : list distribution) : Prop :=
  Forall (λ d, is_Some (dist_name d)) l.

(** ** Kinds of exception *)

(** [isinstance(e, tox.exception.ConfigError)] *)
Definition is_config_error (e : exception) : bool :=
  match e with ConfigError _ => true | _ => false end.

(** [isinstance(e, tox.exception.InterpreterNotFound)]: the class itself
    and its subclass [InterpreterMismatch]. *)
Definition is_interpreter_not_found (e : exception) : bool :=
  match e with
  | InterpreterNotFound _ | InterpreterMismatch _ => true
  | _ => false
  end.

(** The errors of the operating-system calls. *)
Definition is_os_error (e : exception) : bool :=
  match e with
  | FileExistsError _ | FileNotFoundError _ | NotADirectoryError _
  | CalledProcessError _ _ => true
  | _ => false
  end.

(** Every exception that [m] can raise is of kind [kind]. *)
Definition raises_only {A : Type} (kind : exception → bool) (m : M A) : Prop :=
  ∀ w e w', m w = (inl e, w') → kind e = true.

(** ** Which part of the world a call may change *)

(** [w'] differs from [w] at most in file-system entries at paths in
    [region]: nothing is written to a sink and no warning is issued. *)
Definition touches_only (region : path → Prop) (w w' : world) : Prop :=
  written w' = written w
  ∧ warned w' = warned w
  ∧ ∀ q, ¬ region q → files w' !! q = files w !! q.

(** The environment directory of a target, what lies below it, and the
    directories above it. *)
Definition around_env (venv : venv_t) (q : path) : Prop :=
  envdir (envconfig venv) `prefix_of` q ∨ q `prefix_of` envdir (envconfig venv).

(** At or below the environment directory of some target of the list. *)
Definition in_some_env (venvs : list venv_t) (q : path) : Prop :=
  ∃ v, v ∈ venvs ∧ envdir (envconfig v) `prefix_of` q.

(** More sample data. *)

Definition rt_windows : runtime := Runtime host_python v3_9 "win32" true.

Definition sample_dists : list distribution :=
  [Distribution (Some "tox") (Some "3.28.0");
   Distribution (Some "pip") (Some "23.0");
   Distribution (Some "six") (Some "1.16.0");
   Distribution (Some "pip") (Some "9.0")].

Definition w_blocked : world :=
  world_of (base_entries ++ [(["proj"; ".tox"; "py39"], File)]).

Definition sample_venv_unknown : venv_t :=
  Venv (EnvConfig ["proj"; ".tox"; "py27"] Bin Python "python2.7" None (ExtLines []))
       (Config opts_current_env false []) [].





(** * Properties *)

(** ** Strings *)

Lemma string_append_assoc (a b c : string) : (a +:+ b) +:+ c = a +:+ b +:+ c.
Proof.
  induction a as [|x a IH]; [done|].
  change (String x ((a +:+ b) +:+ c) = String x (a +:+ b +:+ c)).
  by rewrite IH.
Qed.

(** ** Paths *)

Lemma dirname_snoc (p : path) (name : string) : dirname (p ++ [name]) = p.
Proof. unfold dirname. apply removelast_last. Qed.

Lemma dirname_join (p : path) (name : string) : dirname (join p name) = p.
Proof. apply dirname_snoc. Qed.

Lemma envpython_bindir e :
  dirname (get_envpython e) = join (envdir e) (bindir_str (envbindir e)).
Proof.
  unfold get_envpython, join.
  change [bindir_str (envbindir e); exe_str (envexe e)]
    with ([bindir_str (envbindir e)] ++ [exe_str (envexe e)]).
  rewrite app_assoc. apply removelast_last.
Qed.

Lemma envpython_root e : dirname (dirname (get_envpython e)) = envdir e.
Proof. rewrite envpython_bindir. apply dirname_join. Qed.







Lemma node_at_cons (f : filesystem) x p : node_at f (x :: p) = f !! (x :: p).
Proof. reflexivity. Qed.

Lemma node_at_snoc (f : filesystem) p x : node_at f (p ++ [x]) = f !! (p ++ [x]).
Proof. by destruct p. Qed.

Lemma node_at_app_cons (f : filesystem) (p : path) x (l : path) :
  node_at f (p ++ x :: l) = f !! (p ++ x :: l).
Proof. by destruct p. Qed.


Lemma node_at_lookup (f : filesystem) p n : f !! p = Some n → p ≠ [] → node_at f p = Some n.
Proof. by destruct p. Qed.

Lemma node_at_mono (f g : filesystem) p n :
  f ⊆ g → node_at f p = Some n → node_at g p = Some n.
Proof.
  intros Hsub. destruct p as [|x p]; [done|].
  rewrite !node_at_cons. intros E. by eapply lookup_weaken.
Qed.

(** ** Existence is monotone in the file system *)

Lemma exists_within_eq (h : nat) (f : filesystem) (p : path) :
  exists_within h f p =
  match node_at f p with
  | None => false
  | Some File | Some Dir => true
  | Some (Symlink t) | Some (Junction t) =>
      match h with
      | O => false
      | S h' => exists_within h' f t
      end
  end.
Proof. by destruct h. Qed.

(** From here on existence tests are unfolded one step at a time, through
    [exists_within_eq]. *)
Opaque exists_within.


Lemma exists_within_None (h : nat) (f : filesystem) p :
  node_at f p = None → exists_within h f p = false.
Proof. intros E. by rewrite exists_within_eq, E. Qed.




(** ** Recursive removal *)

Lemma dirname_prefix (p : path) : dirname p `prefix_of` p.
Proof.
  destruct p as [|x p] using rev_ind; [done|].
  unfold dirname. rewrite removelast_last. by apply prefix_app_r.
Qed.

Lemma rmtree_subseteq (root : path) (f : filesystem) : rmtree_fs root f ⊆ f.
Proof.
  unfold rmtree_fs. destruct (node_at f root) as [[| | |]|]; try done.
  apply map_filter_subseteq.
Qed.

Lemma rmtree_lookup_other (root : path) (f : filesystem) (p : path) :
  ¬ root `prefix_of` p → rmtree_fs root f !! p = f !! p.
Proof.
  intros Hp. unfold rmtree_fs. destruct (node_at f root) as [[| | |]|]; try done.
  destruct (f !! p) as [n|] eqn:E.
  - by apply map_lookup_filter_Some_2.
  - apply map_lookup_filter_None_2. by left.
Qed.


Lemma tree_ok_below (f : filesystem) (q l : path) :
  tree_ok f → node_at f q ≠ Some Dir → l ≠ [] → f !! (q ++ l) = None.
Proof.
  intros Hok Hq. induction l as [|x l IH] using rev_ind; [done|]. intros _.
  destruct (f !! (q ++ l ++ [x])) as [n|] eqn:E; [|done].
  apply Hok in E. simpl in E. unfold dirname in E.
  rewrite app_assoc, removelast_last in E.
  destruct l as [|y l].
  - rewrite app_nil_r in E. done.
  - assert (Hne : y :: l ≠ []) by done. apply IH in Hne.
    rewrite node_at_app_cons in E. congruence.
Qed.



Lemma rmtree_tree_ok (root : path) (f : filesystem) : tree_ok f → tree_ok (rmtree_fs root f).
Proof.
  intros Hok. unfold rmtree_fs.
  destruct (node_at f root) as [[| | |]|] eqn:E; try done.
  intros p n Hp. apply map_lookup_filter_Some in Hp as [Hp Hkeep]. simpl in Hkeep.
  specialize (Hok p n Hp). simpl in Hok.
  destruct (dirname p) as [|x d] eqn:Ed; [done|].
  rewrite node_at_cons in *. apply map_lookup_filter_Some_2; [done|]. simpl.
  intros Hpre. apply Hkeep. etrans; [exact Hpre|]. rewrite <- Ed. apply dirname_prefix.
Qed.

(** ** Trees without links to directories *)

Lemma dir_within_eq (h : nat) (f : filesystem) (p : path) :
  dir_within h f p =
  match node_at f p with
  | Some Dir => true
  | Some (Symlink t) | Some (Junction t) =>
      match h with
      | O => false
      | S h' => dir_within h' f t
      end
  | _ => false
  end.
Proof. by destruct h. Qed.

Opaque dir_within.

Lemma dir_within_mono (h : nat) (f g : filesystem) (p : path) :
  f ⊆ g → dir_within h f p = true → dir_within h g p = true.
Proof.
  intros Hsub. revert p. induction h as [|h IH]; intros p;
    rewrite !(dir_within_eq _ _ p);
    (destruct (node_at f p) as [n|] eqn:E; [|done]);
    rewrite (node_at_mono f g p n Hsub E); destruct n; auto.
Qed.

(** Taking entries away makes no link lead to a directory. *)
Lemma no_dir_link_anti (f g : filesystem) (n : node) :
  f ⊆ g → no_dir_link g n → no_dir_link f n.
Proof.
  intros Hsub. unfold no_dir_link.
  destruct n as [| |t|t]; [exact id|exact id| |]; intros Hg;
    (destruct (dir_within MAXSYMLINKS f t) eqn:E; [|reflexivity]);
    apply (dir_within_mono _ f g t Hsub) in E; rewrite E in Hg; discriminate Hg.
Qed.

Lemma plain_tree_tree (f : filesystem) : plain_tree f → tree_ok f.
Proof. by intros [Hok _]. Qed.

Lemma rmtree_plain_tree (root : path) (f : filesystem) :
  plain_tree f → plain_tree (rmtree_fs root f).
Proof.
  intros [Hok Hl]. split; [by apply rmtree_tree_ok|].
  intros p n Hp. apply (no_dir_link_anti _ f); [apply rmtree_subseteq|].
  apply (Hl p). eapply lookup_weaken; [exact Hp|apply rmtree_subseteq].
Qed.


(** ** After [rm_venv] nothing of the target is left *)

Lemma rm_venv_run (venv : venv_t) (w : world) :
  rm_venv venv w =
  (inr tt, World (rmtree_fs (envdir (envconfig venv)) (files w)) (written w) (warned w)).
Proof. unfold rm_venv. rewrite envpython_root. reflexivity. Qed.




Lemma inspect_table (f : filesystem) (venv : venv_t) :
  inspect f venv =
  match path_exists f (get_envpython (envconfig venv)),
        path_exists f (activate_path (envconfig venv)) with
  | false, _ => Absent
  | true, false => Redirect
  | true, true => Materialized
  end.
Proof.
  unfold inspect, is_proper_venv, is_current_env_link, _python_activate_exists.
  fold (activate_path (envconfig venv)).
  by destruct (path_exists f (get_envpython (envconfig venv))),
       (path_exists f (activate_path (envconfig venv))).
Qed.

Lemma inspect_absent_iff (f : filesystem) (venv : venv_t) :
  inspect f venv = Absent ↔ path_exists f (get_envpython (envconfig venv)) = false.
Proof.
  rewrite inspect_table.
  by destruct (path_exists f (get_envpython (envconfig venv))),
       (path_exists f (activate_path (envconfig venv))).
Qed.

Lemma inspect_redirect_iff (f : filesystem) (venv : venv_t) :
  inspect f venv = Redirect ↔ is_current_env_link f venv = true.
Proof.
  unfold inspect, is_proper_venv, is_current_env_link, _python_activate_exists.
  fold (activate_path (envconfig venv)).
  by destruct (path_exists f (get_envpython (envconfig venv))),
       (path_exists f (activate_path (envconfig venv))).
Qed.

Lemma inspect_materialized_iff (f : filesystem) (venv : venv_t) :
  inspect f venv = Materialized ↔ is_proper_venv f venv = true.
Proof.
  unfold inspect, is_proper_venv, is_current_env_link, _python_activate_exists.
  fold (activate_path (envconfig venv)).
  by destruct (path_exists f (get_envpython (envconfig venv))),
       (path_exists f (activate_path (envconfig venv))).
Qed.



Lemma any_env_spec (f : filesystem) (venv : venv_t) :
  is_any_env f venv = path_exists f (get_envpython (envconfig venv)).
Proof. reflexivity. Qed.

(** ** Making directories and links *)




Lemma path_exists_missing (f : filesystem) (p : path) :
  node_at f p = None → path_exists f p = false.
Proof. apply exists_within_None. Qed.



Lemma prefix_snoc_inv (q l : path) (x : string) :
  q `prefix_of` l ++ [x] → q = l ++ [x] ∨ q `prefix_of` l.
Proof.
  intros [k Hk]. destruct k as [|y k] using rev_ind.
  - left. by rewrite app_nil_r in Hk.
  - right. rewrite app_assoc in Hk. apply app_inj_tail in Hk as [-> _].
    by apply prefix_app_r.
Qed.






(** ** The compatibility check *)

(** The check reads the file system and changes nothing. *)
Lemma unsupported_raise_pure (rt : runtime) (config : config_t) (venv : venv_t) (w : world) :
  (unsupported_raise rt config venv w).2 = w.
Proof.
  unfold unsupported_raise, mbind, M_bind, get_fs, mret, M_ret, raise.
  destruct (recreate _); [done|].
  destruct (negb _ && is_current_env_link _ _); [by destruct (has_tox_cleanup rt)|].
  by destruct (current_env _ && is_proper_venv _ _).
Qed.

(** C1: the compatibility check succeeds whenever recreate is requested;
    without recreate it fails, with a configuration error, exactly for a
    regular run over a redirect and for a current-env run over a
    materialized environment, and succeeds for every other mode and shape. *)
Theorem unsupported_raise_table (rt : runtime) (config : config_t) (venv : venv_t) (w : world) :
  unsupported_raise rt config venv w =
    (if recreate (config_option config)
        || negb (stale (run_mode (config_option config)) (inspect (files w) venv))
     then inr tt
     else inl (ConfigError (stale_message rt (run_mode (config_option config)))),
     w)
  ∧ (∀ m s, stale m s = true ↔
       (m = Regular ∧ s = Redirect) ∨ (m = CurrentEnv ∧ s = Materialized))
  ∧ stale Regular Materialized = false
  ∧ stale Regular Absent = false
  ∧ stale CurrentEnv Redirect = false.
Proof.
  split; [|split; [|done]].
  - unfold unsupported_raise, run_mode, inspect, stale_message,
      mbind, M_bind, get_fs, mret, M_ret, raise,
      is_current_env_link, is_proper_venv, _python_activate_exists.
    fold (activate_path (envconfig venv)). cbn beta iota zeta.
    destruct (recreate _); [done|].
    destruct (current_env _), (truthy _), (has_tox_cleanup rt),
      (path_exists (files w) (get_envpython (envconfig venv))),
      (path_exists (files w) (activate_path (envconfig venv))); reflexivity.
  - intros m s. destruct m, s; simpl; split; intros H;
      try discriminate H; try (by left); try (by right);
      destruct H as [[H1 H2]|[H1 H2]]; congruence.
Qed.

(** ** Inspection *)

(** C4: the shape is [Absent] when the interpreter path does not exist,
    [Redirect] when the interpreter exists and the activation script does
    not, [Materialized] when both exist; it is a function of the two
    existence tests, which return a pair and change nothing.  In
    particular, where no path passes through a link, a directory of the
    interpreter that does not exist makes the shape [Absent]. *)
Theorem inspect_shape (f : filesystem) (venv : venv_t) :
  inspect f venv =
    shape_of (path_exists f (get_envpython (envconfig venv)))
             (path_exists f (join (dirname (get_envpython (envconfig venv))) "activate"))
  ∧ _python_activate_exists f venv =
      (path_exists f (get_envpython (envconfig venv)),
       path_exists f (join (dirname (get_envpython (envconfig venv))) "activate"))
  ∧ (plain_tree f → path_exists f (dirname (get_envpython (envconfig venv))) = false →
     inspect f venv = Absent).
Proof.
  split; [|split].
  - apply inspect_table.
  - reflexivity.
  - intros [Hok _] Hdir. apply inspect_absent_iff. apply path_exists_missing.
    unfold get_envpython. rewrite node_at_app_cons.
    change [bindir_str (envbindir (envconfig venv)); exe_str (envexe (envconfig venv))]
      with ([bindir_str (envbindir (envconfig venv))] ++ [exe_str (envexe (envconfig venv))]).
    rewrite app_assoc. apply tree_ok_below; [done| |done].
    rewrite envpython_bindir in Hdir. unfold join in Hdir.
    intros Hnode. unfold path_exists in Hdir.
    rewrite exists_within_eq, Hnode in Hdir. discriminate Hdir.
Qed.

(** A decidable condition holds when its decision evaluates to [true]. *)
Lemma decided (P : Prop) `{Decision P} : bool_decide P = true → P.
Proof. apply bool_decide_eq_true. Qed.

Lemma inspect_shape_witness :
  inspect (files w_absent) (sample_venv opts_regular "py39" v3_9) = Absent
  ∧ inspect (files w_redirect) (sample_venv opts_regular "py39" v3_9) = Redirect
  ∧ inspect (files w_materialized) (sample_venv opts_regular "py39" v3_9) = Materialized
  ∧ inspect (files w_blocked) (sample_venv opts_regular "py39" v3_9) = Absent.
Proof.
  split; [|split; [|split]].
  - apply (inspect_shape (files w_absent) (sample_venv opts_regular "py39" v3_9)).
    + apply (decided _). vm_compute. reflexivity.
    + vm_compute. reflexivity.
  - rewrite (proj1 (inspect_shape (files w_redirect)
                      (sample_venv opts_regular "py39" v3_9))).
    vm_compute. reflexivity.
  - rewrite (proj1 (inspect_shape (files w_materialized)
                      (sample_venv opts_regular "py39" v3_9))).
    vm_compute. reflexivity.
  - apply (inspect_shape (files w_blocked) (sample_venv opts_regular "py39" v3_9)).
    + apply (decided _). vm_compute. reflexivity.
    + vm_compute. reflexivity.
Defined.

(** ** Provisioning *)

Ltac run_hook :=
  unfold mbind, M_bind, get_fs, mret, M_ret, raise; cbn beta iota zeta.

Lemma create_existing_print_deps (rt : runtime) (venv : venv_t) (w : world) :
  truthy (print_deps_to (config_option (venv_config venv))) = true →
  is_any_env (files w) venv = true →
  tox_testenv_create rt venv w = (inr Handled, w).
Proof. intros Hs Ha. unfold tox_testenv_create. run_hook. by rewrite Hs, Ha. Qed.


Lemma create_current_env_match (rt : runtime) (venv : venv_t) (w : world) (vi : version_info_t) :
  current_env (config_option (venv_config venv)) = true →
  truthy (print_deps_to (config_option (venv_config venv))) && is_any_env (files w) venv = false →
  python_version_info (envconfig venv) = Some vi →
  first2 vi = first2 (sys_version_info rt) →
  tox_testenv_create rt venv w = make_fake_env rt venv w.
Proof.
  intros Hc Hs Hv Heq. unfold tox_testenv_create. run_hook.
  rewrite Hc, Hs, Hv. rewrite bool_decide_eq_false_2 by (by intros ?).
  destruct (truthy _); by destruct (make_fake_env rt venv w) as [[?|?] ?].
Qed.

(** C5: in current-env mode a target whose requested version differs from
    the running interpreter's in major.minor makes provisioning fail with
    an interpreter mismatch whose message shows both version tuples, and
    the world is left as it was: nothing is removed and no link is made. *)
Theorem create_version_mismatch (rt : runtime) (venv : venv_t) (w : world) (vi : version_info_t) :
  current_env (config_option (venv_config venv)) = true →
  print_deps_to (config_option (venv_config venv)) = None
    ∨ inspect (files w) venv = Absent →
  python_version_info (envconfig venv) = Some vi →
  first2 vi ≠ first2 (sys_version_info rt) →
  tox_testenv_create rt venv w =
    (inl (InterpreterMismatch (msg_versions_do_not_match (sys_version_info rt) vi)), w)
  ∧ inspect (files (tox_testenv_create rt venv w).2) venv = inspect (files w) venv
  ∧ ∃ before between,
      msg_versions_do_not_match (sys_version_info rt) vi =
      before +:+ repr_version (sys_version_info rt) +:+ between +:+ repr_version vi.
Proof.
  intros Hc Hs Hv Hne.
  assert (Hrun : tox_testenv_create rt venv w =
    (inl (InterpreterMismatch (msg_versions_do_not_match (sys_version_info rt) vi)), w)).
  { unfold tox_testenv_create. run_hook.
    assert (Hgo : truthy (print_deps_to (config_option (venv_config venv)))
                  && is_any_env (files w) venv = false).
    { destruct Hs as [->|Habs]; [done|].
      apply inspect_absent_iff in Habs. rewrite any_env_spec, Habs.
      apply andb_false_r. }
    rewrite Hgo, Hc, Hv. by rewrite bool_decide_eq_true_2. }
  split; [done|]. split; [by rewrite Hrun|].
  exists ("tox_current_env: interpreter versions do not match:" +:+ nl
          +:+ "    in current env: "), (nl +:+ "    requested: ").
  unfold msg_versions_do_not_match.
  rewrite !string_append_assoc. reflexivity.
Qed.

Lemma create_version_mismatch_witness :
  tox_testenv_create rt_linux (sample_venv opts_current_env "py311" v3_11) w_absent =
    (inl (InterpreterMismatch (msg_versions_do_not_match v3_9 v3_11)), w_absent).
Proof.
  apply (create_version_mismatch rt_linux (sample_venv opts_current_env "py311" v3_11)
           w_absent v3_11).
  - reflexivity.
  - left. reflexivity.
  - reflexivity.
  - vm_compute. intros H. discriminate H.
Defined.








(** ** Removal of an environment *)




(** ** The test-run callback *)


Lemma runtest_run (rt : runtime) (venv : venv_t) (w : world) (out : sink) :
  print_deps_to (config_option (venv_config venv)) = Some out →
  (unsupported_raise rt (venv_config venv) venv w).1 = inr tt →
  tox_runtest rt venv w =
    (inr Handled,
     World (files w)
           (written w ++ [(out, print_text (resolved_dependencies venv))])
           (warned w)).
Proof.
  intros Hs Hguard. unfold tox_runtest. run_hook.
  pose proof (unsupported_raise_pure rt (venv_config venv) venv w) as Hpure.
  destruct (unsupported_raise rt (venv_config venv) venv w) as [r w0].
  simpl in Hguard, Hpure. subst r w0. rewrite Hs. reflexivity.
Qed.



(** ** Where the check runs *)

Lemma failed_check_stops (rt : runtime) (venv : venv_t) (w : world) (e : exception)
    {A : Type} (k : unit → M A) :
  (unsupported_raise rt (venv_config venv) venv w).1 = inl e →
  (unsupported_raise rt (venv_config venv) venv ≫= k) w = (inl e, w).
Proof.
  intros Hfail. run_hook.
  pose proof (unsupported_raise_pure rt (venv_config venv) venv w) as Hpure.
  destruct (unsupported_raise rt (venv_config venv) venv w) as [r w0].
  simpl in Hfail, Hpure. by subst r w0.
Qed.

Lemma passed_check_continues (rt : runtime) (venv : venv_t) (w : world)
    {A : Type} (k : unit → M A) :
  (unsupported_raise rt (venv_config venv) venv w).1 = inr tt →
  (unsupported_raise rt (venv_config venv) venv ≫= k) w = k tt w.
Proof.
  intros Hpass. run_hook.
  pose proof (unsupported_raise_pure rt (venv_config venv) venv w) as Hpure.
  destruct (unsupported_raise rt (venv_config venv) venv w) as [r w0].
  simpl in Hpass, Hpure. by subst r w0.
Qed.

Lemma check_outcome (rt : runtime) (venv : venv_t) (w : world) :
  (∃ e, (unsupported_raise rt (venv_config venv) venv w).1 = inl e)
  ∨ (unsupported_raise rt (venv_config venv) venv w).1 = inr tt.
Proof.
  destruct (unsupported_raise rt (venv_config venv) venv w) as [[e|[]] w0]; eauto.
Qed.

Lemma create_regular (rt : runtime) (venv : venv_t) (w : world) :
  current_env (config_option (venv_config venv)) = false →
  print_deps_to (config_option (venv_config venv)) = None →
  tox_testenv_create rt venv w =
    (inr NotHandled,
     World (if is_proper_venv (files w) venv then files w
            else rmtree_fs (envdir (envconfig venv)) (files w))
           (written w) (warned w)).
Proof.
  intros Hc Hs. unfold tox_testenv_create. run_hook. rewrite Hc, Hs. simpl.
  destruct (is_proper_venv (files w) venv); simpl.
  - by destruct w.
  - by rewrite envpython_root.
Qed.

(** C2, as the code has it: the package, dependency-install and test-run
    callbacks start with the compatibility check; when it fails they raise
    its error and nothing is written, installed or substituted, and none of
    the three ever changes the file system.  The provisioning callback acts
    on mode and shape alone, without the check: a regular run removes
    whatever is not a materialized environment and leaves provisioning to
    the host, a current-env run with a matching version removes the
    environment and makes the redirect. *)
Theorem check_comes_first (rt : runtime) (session : session_t) (venv : venv_t) (w : world) :
  (∀ e, (unsupported_raise rt (venv_config venv) venv w).1 = inl e →
        tox_package rt session venv w = (inl e, w)
        ∧ tox_testenv_install_deps rt venv w = (inl e, w)
        ∧ tox_runtest rt venv w = (inl e, w))
  ∧ files (tox_package rt session venv w).2 = files w
  ∧ files (tox_testenv_install_deps rt venv w).2 = files w
  ∧ files (tox_runtest rt venv w).2 = files w
  ∧ (current_env (config_option (venv_config venv)) = false →
     print_deps_to (config_option (venv_config venv)) = None →
     tox_testenv_create rt venv w =
       (inr NotHandled,
        World (if is_proper_venv (files w) venv then files w
               else rmtree_fs (envdir (envconfig venv)) (files w))
              (written w) (warned w)))
  ∧ (current_env (config_option (venv_config venv)) = true →
     print_deps_to (config_option (venv_config venv)) = None →
     ∀ vi, python_version_info (envconfig venv) = Some vi →
           first2 vi = first2 (sys_version_info rt) →
           tox_testenv_create rt venv w = make_fake_env rt venv w).
Proof.
  split; [|split; [|split; [|split; [|split]]]].
  - intros e Hfail. split; [|split].
    + unfold tox_package. by apply failed_check_stops.
    + unfold tox_testenv_install_deps. by apply failed_check_stops.
    + unfold tox_runtest. by apply failed_check_stops.
  - unfold tox_package.
    destruct (check_outcome rt venv w) as [[e Hfail]|Hpass].
    + by rewrite (failed_check_stops rt venv w e).
    + by rewrite (passed_check_continues rt venv w).
  - unfold tox_testenv_install_deps.
    destruct (check_outcome rt venv w) as [[e Hfail]|Hpass].
    + by rewrite (failed_check_stops rt venv w e).
    + rewrite (passed_check_continues rt venv w) by done.
      by destruct (current_env _ || truthy _).
  - unfold tox_runtest.
    destruct (check_outcome rt venv w) as [[e Hfail]|Hpass].
    + by rewrite (failed_check_stops rt venv w e).
    + rewrite (passed_check_continues rt venv w) by done.
      by destruct (print_deps_to _).
  - apply create_regular.
  - intros Hc Hs vi Hv Heq.
    apply (create_current_env_match rt venv w vi); [done|by rewrite Hs|done|done].
Qed.

Lemma check_comes_first_witness :
  tox_package rt_linux (Session []) (sample_venv opts_regular "py39" v3_9) w_redirect
    = (inl (ConfigError msg_cleanup_unfinished), w_redirect)
  ∧ tox_testenv_install_deps rt_linux (sample_venv opts_regular "py39" v3_9) w_redirect
    = (inl (ConfigError msg_cleanup_unfinished), w_redirect)
  ∧ tox_runtest rt_linux (sample_venv opts_regular "py39" v3_9) w_redirect
    = (inl (ConfigError msg_cleanup_unfinished), w_redirect).
Proof.
  apply (check_comes_first rt_linux (Session []) (sample_venv opts_regular "py39" v3_9)
           w_redirect).
  vm_compute. reflexivity.
Defined.

(** C2 as stated fails at the provisioning callback: a current-env run over
    a materialized environment, without recreate, is one the check rejects,
    yet [tox_testenv_create] removes the environment and makes the
    redirect. *)
Lemma create_mutates_unchecked :
  (unsupported_raise rt_linux (venv_config (sample_venv opts_current_env "py39" v3_9))
     (sample_venv opts_current_env "py39" v3_9) w_materialized).1
    = inl (ConfigError msg_current_env_after_regular)
  ∧ inspect (files w_materialized) (sample_venv opts_current_env "py39" v3_9) = Materialized
  ∧ (tox_testenv_create rt_linux (sample_venv opts_current_env "py39" v3_9) w_materialized).1
    = inr Handled
  ∧ inspect
      (files (tox_testenv_create rt_linux (sample_venv opts_current_env "py39" v3_9)
                w_materialized).2)
      (sample_venv opts_current_env "py39" v3_9) = Redirect
  ∧ files (tox_testenv_create rt_linux (sample_venv opts_current_env "py39" v3_9)
             w_materialized).2 !! ["proj"; ".tox"; "py39"; "bin"; "activate"] = None.
Proof.
  split; [vm_compute; reflexivity|]. split; [vm_compute; reflexivity|].
  split; [vm_compute; reflexivity|]. split; vm_compute; reflexivity.
Qed.

(** ** Both flags at once *)

Lemma without_sink_check (rt : runtime) (venv : venv_t) (w : world) :
  current_env (config_option (venv_config venv)) = true →
  unsupported_raise rt (venv_config venv) venv w =
  unsupported_raise rt (venv_config (without_sink venv)) (without_sink venv) w.
Proof.
  intros Hc. unfold unsupported_raise, without_sink, is_current_env_link,
    is_proper_venv, _python_activate_exists. simpl. rewrite Hc. reflexivity.
Qed.

Lemma configure_fails_iff (c : config_t) (w : world) :
  (∃ e, (tox_configure c w).1 = inl e) ↔
  print_deps_only (config_option c) = true
  ∧ truthy (print_deps_to (config_option c)) = true.
Proof.
  unfold tox_configure, warn. run_hook.
  destruct (print_deps_only (config_option c)),
    (truthy (print_deps_to (config_option c))) eqn:Hs; cbn.
  - split; [done|]. intros _. by eexists.
  - split; [|by intros [_ ?]]. intros [e He].
    by destruct (current_env (config_option c)).
  - split; [|by intros [? _]]. intros [e He].
    by destruct (current_env (config_option c)).
  - split; [|by intros [? _]]. intros [e He].
    by destruct (current_env (config_option c)).
Qed.

(** C10, as the code has it: the current-env flag together with the sink
    flag is configured without error or warning (configuration fails only
    for the deprecated alias together with a sink); the staleness check then
    decides as in a current-env run, dependency installation is skipped,
    the dependencies are printed at the test run, and provisioning of an
    absent target is that of a current-env run, version comparison
    included; for a target that already has an environment provisioning
    reports handled at once and compares no versions. *)
Theorem both_flags (rt : runtime) (venv : venv_t) (w : world) (out : sink) :
  current_env (config_option (venv_config venv)) = true →
  print_deps_to (config_option (venv_config venv)) = Some out →
  print_deps_only (config_option (venv_config venv)) = false →
  tox_configure (venv_config venv) w =
    (inr (Config (config_option (venv_config venv)) true
            (map (λ kv, (kv.1, allow_all_externals kv.2))
                 (envconfigs (venv_config venv)))), w)
  ∧ unsupported_raise rt (venv_config venv) venv w =
      unsupported_raise rt (venv_config (without_sink venv)) (without_sink venv) w
  ∧ ((unsupported_raise rt (venv_config venv) venv w).1 = inr tt →
       tox_testenv_install_deps rt venv w = (inr Handled, w)
       ∧ tox_runtest rt venv w =
           (inr Handled,
            World (files w)
                  (written w ++ [(out, print_text (resolved_dependencies venv))])
                  (warned w)))
  ∧ (inspect (files w) venv = Absent →
       tox_testenv_create rt venv w = tox_testenv_create rt (without_sink venv) w)
  ∧ (inspect (files w) venv ≠ Absent →
       tox_testenv_create rt venv w = (inr Handled, w))
  ∧ (∀ (c : config_t) (w0 : world),
       (∃ e, (tox_configure c w0).1 = inl e) ↔
       print_deps_only (config_option c) = true
       ∧ truthy (print_deps_to (config_option c)) = true).
Proof.
  intros Hc Hs Hd. split; [|split; [|split; [|split; [|split]]]];
    [| | | | |apply configure_fails_iff].
  - unfold tox_configure. run_hook. rewrite Hd. cbn beta iota. rewrite Hc. simpl.
    reflexivity.
  - by apply without_sink_check.
  - intros Hpass. split.
    + unfold tox_testenv_install_deps.
      rewrite (passed_check_continues rt venv w) by done.
      by rewrite Hc.
    + by apply runtest_run.
  - intros Habs. apply inspect_absent_iff in Habs.
    unfold tox_testenv_create, without_sink. simpl. run_hook.
    rewrite Hs, Hc. simpl. rewrite !any_env_spec. simpl. rewrite Habs. simpl.
    reflexivity.
  - intros Hex. apply create_existing_print_deps; [by rewrite Hs|].
    rewrite any_env_spec. rewrite inspect_absent_iff in Hex.
    by destruct (path_exists _ _).
Qed.

Lemma both_flags_witness :
  tox_testenv_create rt_linux (sample_venv opts_both "py311" v3_11) w_absent =
  tox_testenv_create rt_linux (without_sink (sample_venv opts_both "py311" v3_11)) w_absent.
Proof.
  apply (both_flags rt_linux (sample_venv opts_both "py311" v3_11) w_absent Stdout).
  - reflexivity.
  - reflexivity.
  - reflexivity.
  - vm_compute. reflexivity.
Defined.

(** C10 as stated fails for the version comparison: over an existing
    redirect, a run with both flags whose target asks for 3.11 under a 3.9
    interpreter is reported handled, where the current-env run raises the
    mismatch. *)
Lemma both_flags_skip_version_check :
  first2 v3_11 ≠ first2 (sys_version_info rt_linux)
  ∧ inspect (files w_redirect) (sample_venv opts_both "py39" v3_11) = Redirect
  ∧ tox_testenv_create rt_linux (sample_venv opts_both "py39" v3_11) w_redirect
    = (inr Handled, w_redirect)
  ∧ tox_testenv_create rt_linux (sample_venv opts_current_env "py39" v3_11) w_redirect
    = (inl (InterpreterMismatch (msg_versions_do_not_match v3_9 v3_11)), w_redirect).
Proof.
  split; [by vm_compute|]. split; [vm_compute; reflexivity|].
  split; vm_compute; reflexivity.
Qed.

(** ** Session cleanup *)






Lemma cleanup_one_run (venv : venv_t) (w : world) :
  cleanup_one venv w =
  (inr tt,
   World (if is_current_env_link (files w) venv
          then rmtree_fs (envdir (envconfig venv)) (files w) else files w)
         (written w) (warned w)).
Proof.
  unfold cleanup_one. run_hook.
  destruct (is_current_env_link (files w) venv).
  - apply rm_venv_run.
  - by destruct w.
Qed.






(** * Further properties of the hooks *)

(** ** What a call may change *)

Lemma touches_only_refl (region : path → Prop) (w : world) : touches_only region w w.
Proof. by repeat split. Qed.

Lemma touches_only_trans (region : path → Prop) (w1 w2 w3 : world) :
  touches_only region w1 w2 → touches_only region w2 w3 → touches_only region w1 w3.
Proof.
  intros (Hw & Hn & Hf) (Hw' & Hn' & Hf'). split; [congruence|]. split; [congruence|].
  intros q Hq. rewrite Hf' by done. by apply Hf.
Qed.

Lemma touches_only_weaken (r1 r2 : path → Prop) (w w' : world) :
  (∀ q, r1 q → r2 q) → touches_only r1 w w' → touches_only r2 w w'.
Proof.
  intros Hsub (Hw & Hn & Hf). split; [done|]. split; [done|].
  intros q Hq. apply Hf. intros Hr. by apply Hq, Hsub.
Qed.

Lemma bind_touches {A B : Type} (region : path → Prop) (m : M A) (k : A → M B) :
  (∀ w, touches_only region w (m w).2) →
  (∀ a w, touches_only region w (k a w).2) →
  ∀ w, touches_only region w ((m ≫= k) w).2.
Proof.
  intros Hm Hk w. unfold mbind, M_bind. specialize (Hm w).
  destruct (m w) as [[e|a] w1]; simpl in *; [done|].
  by apply (touches_only_trans region w w1).
Qed.

Lemma ret_touches {A : Type} (region : path → Prop) (a : A) (w : world) :
  touches_only region w ((mret a : M A) w).2.
Proof. apply touches_only_refl. Qed.

Lemma raise_touches {A : Type} (region : path → Prop) (e : exception) (w : world) :
  touches_only region w ((raise e : M A) w).2.
Proof. apply touches_only_refl. Qed.

Lemma insert_touches (w : world) (p : path) (n : node) :
  touches_only (λ q, q = p) w (World (<[p := n]> (files w)) (written w) (warned w)).
Proof.
  split; [done|]. split; [done|]. intros q Hq. simpl.
  apply lookup_insert_ne. by intros ->.
Qed.

Lemma mkdir_touches (p : path) (w : world) :
  touches_only (λ q, q = p) w (mkdir p w).2.
Proof.
  unfold mkdir. run_hook.
  destruct (node_at (files w) p); [apply touches_only_refl|].
  destruct (node_at (files w) (dirname p)) as [[| | |]|];
    try apply touches_only_refl. apply insert_touches.
Qed.

Lemma symlink_touches (target link : path) (w : world) :
  touches_only (λ q, q = link) w (symlink target link w).2.
Proof.
  unfold symlink. run_hook.
  destruct (node_at (files w) link); [apply touches_only_refl|].
  destruct (node_at (files w) (dirname link)) as [[| | |]|];
    try apply touches_only_refl. apply insert_touches.
Qed.

Lemma mklink_touches (link target : path) (w : world) :
  touches_only (λ q, q = link) w (mklink_junction link target w).2.
Proof.
  unfold mklink_junction. run_hook.
  destruct (node_at (files w) link); [apply touches_only_refl|].
  destruct (node_at (files w) (dirname link)) as [[| | |]|];
    try apply touches_only_refl. apply insert_touches.
Qed.

Lemma ignoring_file_exists_world (m : M unit) (w : world) :
  (ignoring_file_exists m w).2 = (m w).2.
Proof.
  unfold ignoring_file_exists. by destruct (m w) as [[[]|[]] w1].
Qed.

Lemma makedirs_rev_touches (rname : list string) : ∀ w : world,
  touches_only (λ q, q `prefix_of` reverse rname) w (makedirs_rev rname w).2.
Proof.
  induction rname as [|tail rhead IH]; intros w.
  - cbn [makedirs_rev]. eapply touches_only_weaken; [|apply mkdir_touches].
    by intros q ->.
  - cbn [makedirs_rev]. rewrite reverse_cons.
    apply bind_touches; [intros w0; apply touches_only_refl|]. intros f w0.
    apply bind_touches.
    + intros w1. destruct (negb (path_exists f (reverse rhead))).
      * rewrite ignoring_file_exists_world.
        eapply touches_only_weaken; [|apply IH].
        intros q Hq. by apply prefix_app_r.
      * apply touches_only_refl.
    + intros _ w1. eapply touches_only_weaken; [|apply mkdir_touches].
      by intros q ->.
Qed.

Lemma rm_venv_touches (venv : venv_t) (w : world) :
  touches_only (around_env venv) w (rm_venv venv w).2.
Proof.
  rewrite rm_venv_run. split; [done|]. split; [done|]. intros q Hq. simpl.
  apply rmtree_lookup_other. intros Hpre. apply Hq. by left.
Qed.

Lemma under_env_around (venv : venv_t) (l : path) :
  around_env venv (envdir (envconfig venv) ++ l).
Proof. left. by apply prefix_app_r. Qed.

Lemma make_fake_env_touches (rt : runtime) (venv : venv_t) (w : world) :
  touches_only (around_env venv) w (make_fake_env rt venv w).2.
Proof.
  unfold make_fake_env. revert w.
  apply bind_touches; [apply rm_venv_touches|]. intros _.
  apply bind_touches.
  { intros w. unfold makedirs.
    eapply touches_only_weaken; [|apply makedirs_rev_touches].
    intros q. rewrite reverse_involutive, envpython_bindir. unfold join.
    intros [->|Hq]%prefix_snoc_inv; [apply under_env_around|by right]. }
  intros _. apply bind_touches; [|intros _ w; apply touches_only_refl].
  intros w. destruct (bool_decide (sys_platform rt = "win32")).
  - eapply touches_only_weaken; [|apply mklink_touches].
    intros q ->. apply under_env_around.
  - eapply touches_only_weaken; [|apply symlink_touches].
    intros q ->. apply under_env_around.
Qed.

(** X1: where no path passes through a link, whatever the flags and the
    versions, and whether it returns or raises, [tox_testenv_create] writes
    to no sink, issues no warning, and changes no file-system entry other
    than those at or below the target's environment directory and the
    directories above it. *)
Theorem create_touches_only_env (rt : runtime) (venv : venv_t) (w : world) :
  plain_tree (files w) →
  touches_only (around_env venv) w (tox_testenv_create rt venv w).2.
Proof.
  intros _. unfold tox_testenv_create. revert w.
  apply bind_touches; [intros w; apply touches_only_refl|]. intros f w.
  destruct (truthy _ && is_any_env f venv); [apply touches_only_refl|].
  revert w. apply bind_touches.
  - intros w. destruct (current_env _); [|apply touches_only_refl].
    destruct (python_version_info _); [|apply touches_only_refl].
    destruct (bool_decide _); apply touches_only_refl.
  - intros _ w. destruct (if truthy _ then true else _).
    + apply make_fake_env_touches.
    + revert w. apply bind_touches; [intros w; apply touches_only_refl|].
      intros f' w. revert w. apply bind_touches.
      * intros w. destruct (negb _); [apply rm_venv_touches|apply touches_only_refl].
      * intros _ w. apply touches_only_refl.
Qed.

Lemma create_touches_only_env_witness :
  touches_only (around_env (sample_venv opts_current_env "py39" v3_9)) w_materialized
    (tox_testenv_create rt_linux (sample_venv opts_current_env "py39" v3_9)
       w_materialized).2.
Proof.
  apply (create_touches_only_env rt_linux (sample_venv opts_current_env "py39" v3_9)
           w_materialized).
  apply (decided _). vm_compute. reflexivity.
Defined.

(** ** More on session cleanup *)

Lemma cleanup_loop_removes (venvs : list venv_t) : ∀ w : world,
  ∃ g : filesystem,
    cleanup_loop venvs w = (inr tt, World g (written w) (warned w))
    ∧ g ⊆ files w
    ∧ (∀ q, ¬ in_some_env venvs q → g !! q = files w !! q)
    ∧ ((∀ v, v ∈ venvs → is_current_env_link (files w) v = false) → g = files w).
Proof.
  induction venvs as [|v rest IH]; intros w.
  - exists (files w). split; [by destruct w|]. by repeat split.
  - cbn [cleanup_loop]. run_hook. rewrite cleanup_one_run.
    set (g1 := if is_current_env_link (files w) v
               then rmtree_fs (envdir (envconfig v)) (files w) else files w).
    destruct (IH (World g1 (written w) (warned w))) as (g & Hrun & Hsub & Hframe & Hsame).
    cbn [files written warned] in *.
    assert (Hsub1 : g1 ⊆ files w).
    { unfold g1. destruct (is_current_env_link _ _); [apply rmtree_subseteq|done]. }
    exists g. split; [exact Hrun|]. split; [by etrans|]. split.
    + intros q Hq. rewrite Hframe.
      * unfold g1. destruct (is_current_env_link _ _); [|done].
        apply rmtree_lookup_other. intros Hpre. apply Hq. exists v.
        split; [apply elem_of_cons; by left|done].
      * intros (u & Hu & Hpre). apply Hq. exists u.
        split; [apply elem_of_cons; by right|done].
    + intros Hnone.
      assert (Hg1 : g1 = files w).
      { unfold g1. rewrite (Hnone v); [done|]. apply elem_of_cons. by left. }
      rewrite Hsame; [done|]. rewrite Hg1. intros u Hu. apply Hnone.
      apply elem_of_cons. by right.
Qed.

Lemma cleanup_loop_plain (venvs : list venv_t) : ∀ (w : world) (g : filesystem),
  plain_tree (files w) →
  cleanup_loop venvs w = (inr tt, World g (written w) (warned w)) →
  plain_tree g.
Proof.
  induction venvs as [|v rest IH]; intros w g Hplain.
  - cbn [cleanup_loop]. unfold mret, M_ret. intros Hrun.
    apply (f_equal (λ r, files r.2)) in Hrun. cbn in Hrun. by rewrite <- Hrun.
  - cbn [cleanup_loop]. run_hook. rewrite cleanup_one_run.
    apply (IH (World _ (written w) (warned w))). cbn [files].
    destruct (is_current_env_link (files w) v); [by apply rmtree_plain_tree|done].
Qed.

(** X2: where no path passes through a link, [tox_cleanup] does not raise,
    writes to no sink and issues no warning; it only takes entries away,
    all of them at or below the environment directory of a target of the
    session, and leaves a file system of the same kind; and when no target
    of the session is a redirect it changes nothing at all. *)
Theorem cleanup_only_removes (session : session_t) (w : world) :
  plain_tree (files w) →
  ∃ g : filesystem,
    tox_cleanup session w = (inr tt, World g (written w) (warned w))
    ∧ g ⊆ files w
    ∧ plain_tree g
    ∧ (∀ q, ¬ in_some_env (map snd (venv_dict session)) q → g !! q = files w !! q)
    ∧ ((∀ v, v ∈ map snd (venv_dict session) → inspect (files w) v ≠ Redirect) →
       tox_cleanup session w = (inr tt, w)).
Proof.
  intros Hplain. unfold tox_cleanup.
  destruct (cleanup_loop_removes (map snd (venv_dict session)) w)
    as (g & Hrun & Hsub & Hframe & Hsame).
  exists g. split; [exact Hrun|]. split; [exact Hsub|].
  split; [exact (cleanup_loop_plain _ w g Hplain Hrun)|]. split; [exact Hframe|].
  intros Hnone. rewrite Hrun, Hsame; [by destruct w|].
  intros v Hv. specialize (Hnone v Hv). rewrite inspect_redirect_iff in Hnone.
  by destruct (is_current_env_link (files w) v).
Qed.

Lemma cleanup_only_removes_witness :
  tox_cleanup sample_session w_materialized = (inr tt, w_materialized).
Proof.
  destruct (cleanup_only_removes sample_session w_materialized)
    as (g & _ & _ & _ & _ & Hsame).
  { apply (decided _). vm_compute. reflexivity. }
  apply Hsame. intros v Hv.
  apply elem_of_cons in Hv as [->|Hv]; [by vm_compute|].
  apply elem_of_cons in Hv as [->|Hv]; [by vm_compute|].
  by apply elem_of_nil in Hv.
Defined.




(** ** More on provisioning *)






(** X5: with the current-env flag, a target whose interpreter the host could
    not find (no version information) makes [tox_testenv_create] raise
    [InterpreterNotFound] for the target's base python, before anything is
    removed or created: the world is left as it was. *)
Theorem create_interpreter_unknown (rt : runtime) (venv : venv_t) (w : world) :
  current_env (config_option (venv_config venv)) = true →
  print_deps_to (config_option (venv_config venv)) = None
    ∨ inspect (files w) venv = Absent →
  python_version_info (envconfig venv) = None →
  tox_testenv_create rt venv w =
    (inl (InterpreterNotFound (basepython (envconfig venv))), w).
Proof.
  intros Hc Hs Hv. unfold tox_testenv_create. run_hook.
  assert (Hgo : truthy (print_deps_to (config_option (venv_config venv)))
                && is_any_env (files w) venv = false).
  { destruct Hs as [->|Habs]; [done|].
    apply inspect_absent_iff in Habs. rewrite any_env_spec, Habs.
    apply andb_false_r. }
  by rewrite Hgo, Hc, Hv.
Qed.

Lemma create_interpreter_unknown_witness :
  tox_testenv_create rt_linux sample_venv_unknown w_materialized =
    (inl (InterpreterNotFound "python2.7"), w_materialized).
Proof.
  apply (create_interpreter_unknown rt_linux sample_venv_unknown w_materialized).
  - reflexivity.
  - left. reflexivity.
  - reflexivity.
Defined.



(** X7: a regular file in the place of the environment directory stops the
    redirect from being made: the removal fails silently, [os.makedirs]
    raises [NotADirectoryError] for the bin directory, and the world is
    left as it was. *)
Theorem make_fake_env_blocked (rt : runtime) (venv : venv_t) (w : world) :
  tree_ok (files w) →
  node_at (files w) (envdir (envconfig venv)) = Some File →
  make_fake_env rt venv w =
    (inl (NotADirectoryError (dirname (get_envpython (envconfig venv)))), w).
Proof.
  intros Hok Hnode. set (e := envconfig venv) in *.
  unfold make_fake_env, mbind, M_bind. rewrite rm_venv_run. fold e.
  unfold rmtree_fs. rewrite Hnode. unfold makedirs.
  rewrite envpython_bindir. unfold join. rewrite reverse_snoc.
  cbn [makedirs_rev]. run_hook. rewrite reverse_involutive. cbn [files].
  assert (Hex : path_exists (files w) (envdir e) = true).
  { unfold path_exists. by rewrite exists_within_eq, Hnode. }
  rewrite Hex. cbn [negb]. unfold mkdir, join. run_hook. cbn [files].
  rewrite node_at_snoc, dirname_snoc, Hnode.
  rewrite (tree_ok_below (files w) (envdir e)); [by destruct w|done| |done].
  by rewrite Hnode.
Qed.

Lemma make_fake_env_blocked_witness :
  make_fake_env rt_linux (sample_venv opts_current_env "py39" v3_9) w_blocked =
    (inl (NotADirectoryError ["proj"; ".tox"; "py39"; "bin"]), w_blocked).
Proof.
  apply (make_fake_env_blocked rt_linux (sample_venv opts_current_env "py39" v3_9) w_blocked).
  - apply (decided _). vm_compute. reflexivity.
  - vm_compute. reflexivity.
Defined.

(** ** Whole runs *)










(** ** Runs that are never blocked, and runs the plugin stays out of *)

(** X11: with only the print-deps sink given the compatibility check never
    fails, whatever is on disk and whether or not recreate is asked for:
    the package callback returns, dependency installation is reported
    handled, and the test-run callback prints the dependencies, in every
    world. *)
Theorem print_deps_never_blocked (rt : runtime) (session : session_t) (venv : venv_t)
    (w : world) (out : sink) :
  current_env (config_option (venv_config venv)) = false →
  print_deps_to (config_option (venv_config venv)) = Some out →
  unsupported_raise rt (venv_config venv) venv w = (inr tt, w)
  ∧ tox_package rt session venv w = (inr NotHandled, w)
  ∧ tox_testenv_install_deps rt venv w = (inr Handled, w)
  ∧ tox_runtest rt venv w =
      (inr Handled,
       World (files w)
             (written w ++ [(out, print_text (resolved_dependencies venv))])
             (warned w)).
Proof.
  intros Hc Hs.
  assert (Hpass : unsupported_raise rt (venv_config venv) venv w = (inr tt, w)).
  { unfold unsupported_raise. run_hook. rewrite Hc, Hs. simpl.
    by destruct (recreate _). }
  split; [exact Hpass|]. split; [|split].
  - unfold tox_package.
    by rewrite (passed_check_continues rt venv w) by by rewrite Hpass.
  - unfold tox_testenv_install_deps.
    rewrite (passed_check_continues rt venv w) by by rewrite Hpass.
    by rewrite Hc, Hs.
  - apply runtest_run; [done|by rewrite Hpass].
Qed.

Lemma print_deps_never_blocked_witness :
  tox_testenv_install_deps rt_linux (sample_venv opts_print_deps "py39" v3_9) w_materialized
    = (inr Handled, w_materialized).
Proof.
  apply (print_deps_never_blocked rt_linux sample_session
           (sample_venv opts_print_deps "py39" v3_9) w_materialized Stdout).
  - reflexivity.
  - reflexivity.
Defined.

(** X12: without any plugin flag the plugin stays out of the way of a target
    that is not a redirect: configuration returns the configuration as it
    is, without a warning; the package, dependency-install and test-run
    callbacks return [None] and change nothing; the report hook returns
    [None]; and provisioning over a materialized environment returns
    [None] and changes nothing. *)
Theorem regular_run_untouched (rt : runtime) (session : session_t) (venv : venv_t)
    (w : world) (distributions : list distribution) :
  current_env (config_option (venv_config venv)) = false →
  print_deps_to (config_option (venv_config venv)) = None →
  print_deps_only (config_option (venv_config venv)) = false →
  inspect (files w) venv ≠ Redirect →
  tox_configure (venv_config venv) w = (inr (venv_config venv), w)
  ∧ tox_package rt session venv w = (inr NotHandled, w)
  ∧ tox_testenv_install_deps rt venv w = (inr NotHandled, w)
  ∧ tox_runtest rt venv w = (inr NotHandled, w)
  ∧ tox_runenvreport distributions venv = ReportNotHandled
  ∧ (inspect (files w) venv = Materialized →
     tox_testenv_create rt venv w = (inr NotHandled, w)).
Proof.
  intros Hc Hs Hd Hshape.
  assert (Hpass : (unsupported_raise rt (venv_config venv) venv w).1 = inr tt).
  { unfold unsupported_raise. run_hook. rewrite Hc, Hs.
    rewrite inspect_redirect_iff in Hshape.
    destruct (recreate _); [done|].
    by destruct (is_current_env_link (files w) venv). }
  split; [|split; [|split; [|split; [|split]]]].
  - unfold tox_configure. run_hook. by rewrite Hd, Hc, Hs.
  - unfold tox_package. by rewrite (passed_check_continues rt venv w).
  - unfold tox_testenv_install_deps.
    rewrite (passed_check_continues rt venv w) by done. by rewrite Hc, Hs.
  - unfold tox_runtest.
    rewrite (passed_check_continues rt venv w) by done. by rewrite Hs.
  - unfold tox_runenvreport. by rewrite Hc, Hd.
  - intros Hmat. rewrite (create_regular rt venv w Hc Hs).
    apply inspect_materialized_iff in Hmat. rewrite Hmat. by destruct w.
Qed.

Lemma regular_run_untouched_witness :
  tox_testenv_create rt_linux (sample_venv opts_regular "py39" v3_9) w_materialized
    = (inr NotHandled, w_materialized).
Proof.
  apply (regular_run_untouched rt_linux sample_session
           (sample_venv opts_regular "py39" v3_9) w_materialized sample_dists).
  - reflexivity.
  - reflexivity.
  - reflexivity.
  - by vm_compute.
  - vm_compute. reflexivity.
Defined.

(** ** Configuration *)

Lemma configure_flags_run (c : config_t) (w : world) :
  print_deps_only (config_option c) = false →
  tox_configure c w =
    (inr (if current_env (config_option c) || truthy (print_deps_to (config_option c))
          then Config (config_option c) true
                 (map (λ kv, (kv.1, allow_all_externals kv.2)) (envconfigs c))
          else c), w).
Proof.
  intros Hd. unfold tox_configure. run_hook. rewrite Hd.
  by destruct (current_env _ || truthy _).
Qed.

Lemma configure_alias_run (c : config_t) (w : world) :
  print_deps_only (config_option c) = true →
  tox_configure c w =
    (if truthy (print_deps_to (config_option c))
     then inl (ConfigError msg_print_deps_conflict)
     else inr (Config (with_print_deps_to (config_option c) (Some Stdout)) true
                 (map (λ kv, (kv.1, allow_all_externals kv.2)) (envconfigs c))),
     World (files w) (written w) (warned w ++ [msg_print_deps_only_deprecated])).
Proof.
  intros Hd. unfold tox_configure, warn. run_hook. rewrite Hd. cbn.
  destruct (truthy (print_deps_to (config_option c))); cbn; [done|].
  by rewrite orb_true_r.
Qed.

(** X13: the deprecated alias.  With [--print-deps-only] the deprecation
    warning is issued first, in every case; without a sink the sink becomes
    standard output, the sdist step is skipped and every target may call any
    external command; with a sink the configuration error is raised, the
    warning having been issued already.  Neither the file system nor any
    sink is touched. *)
Theorem configure_deprecated_alias (c : config_t) (w : world) :
  print_deps_only (config_option c) = true →
  ∃ r, tox_configure c w =
         (r, World (files w) (written w) (warned w ++ [msg_print_deps_only_deprecated]))
    ∧ (print_deps_to (config_option c) = None →
       ∃ c', r = inr c'
         ∧ print_deps_to (config_option c') = Some Stdout
         ∧ current_env (config_option c') = current_env (config_option c)
         ∧ recreate (config_option c') = recreate (config_option c)
         ∧ skipsdist c' = true
         ∧ Forall (λ kv, whitelist_externals kv.2 = ExtStr "*") (envconfigs c'))
    ∧ (print_deps_to (config_option c) ≠ None →
       r = inl (ConfigError msg_print_deps_conflict)).
Proof.
  intros Hd. rewrite (configure_alias_run c w Hd).
  eexists. split; [reflexivity|]. split.
  - intros Hs. rewrite Hs. cbn [truthy]. eexists. split; [reflexivity|].
    cbn. repeat (split; [done|]). apply Forall_forall.
    intros kv (kv0 & -> & _)%list_elem_of_fmap. done.
  - intros Hs. by destruct (print_deps_to (config_option c)).
Qed.

Lemma configure_deprecated_alias_witness :
  ∃ r, tox_configure (Config (Options false true (Some Stdout) false) false []) w_absent =
         (r, World (files w_absent) [] [msg_print_deps_only_deprecated])
       ∧ r = inl (ConfigError msg_print_deps_conflict).
Proof.
  destruct (configure_deprecated_alias
              (Config (Options false true (Some Stdout) false) false []) w_absent)
    as (r & Hrun & _ & Hconflict); [reflexivity|].
  exists r. split; [exact Hrun|]. apply Hconflict. discriminate.
Defined.

(** X14: what configuration keeps.  Whenever [tox_configure] returns, the
    world is unchanged but for the deprecation warning, the targets are the
    same in number, names and order, each keeps its environment
    directory, interpreter path, base python and version information, and
    the current-env, print-deps-only and recreate options are as given. *)
Theorem configure_keeps_targets (c c' : config_t) (w w' : world) :
  tox_configure c w = (inr c', w') →
  files w' = files w ∧ written w' = written w
  ∧ map fst (envconfigs c') = map fst (envconfigs c)
  ∧ map (λ kv, get_envpython kv.2) (envconfigs c')
    = map (λ kv, get_envpython kv.2) (envconfigs c)
  ∧ map (λ kv, (envdir kv.2, basepython kv.2, python_version_info kv.2)) (envconfigs c')
    = map (λ kv, (envdir kv.2, basepython kv.2, python_version_info kv.2)) (envconfigs c)
  ∧ current_env (config_option c') = current_env (config_option c)
  ∧ print_deps_only (config_option c') = print_deps_only (config_option c)
  ∧ recreate (config_option c') = recreate (config_option c).
Proof.
  intros Hrun.
  assert (Hmap : ∀ {A} (f : envconfig_t → A),
    (∀ e, f (allow_all_externals e) = f e) →
    map (λ kv, f kv.2) (map (λ kv : string * envconfig_t, (kv.1, allow_all_externals kv.2))
                            (envconfigs c))
    = map (λ kv, f kv.2) (envconfigs c)).
  { intros A f Hf. rewrite map_map. apply map_ext. intros kv. simpl. apply Hf. }
  assert (Hfst : map fst (map (λ kv : string * envconfig_t,
                                 (kv.1, allow_all_externals kv.2)) (envconfigs c))
                 = map fst (envconfigs c)).
  { rewrite map_map. by apply map_ext. }
  destruct (print_deps_only (config_option c)) eqn:Hd.
  - rewrite (configure_alias_run c w Hd) in Hrun.
    destruct (truthy (print_deps_to (config_option c))); [done|].
    injection Hrun as <- <-. cbn.
    rewrite Hfst, (Hmap _ get_envpython),
      (Hmap _ (λ e, (envdir e, basepython e, python_version_info e))); done.
  - rewrite (configure_flags_run c w Hd) in Hrun. injection Hrun as <- <-.
    destruct (current_env (config_option c) || truthy (print_deps_to (config_option c)));
      [|by rewrite Hd].
    cbn.
    rewrite Hfst, (Hmap _ get_envpython),
      (Hmap _ (λ e, (envdir e, basepython e, python_version_info e))); by rewrite ?Hd.
Qed.

Lemma configure_keeps_targets_witness :
  tox_configure (venv_config (sample_venv opts_both "py39" v3_9)) w_absent
    = (inr (Config opts_both true [("py39", allow_all_externals (sample_env "py39" v3_9))]),
       w_absent)
  ∧ map fst (envconfigs (Config opts_both true
               [("py39", allow_all_externals (sample_env "py39" v3_9))]))
    = map fst (envconfigs (venv_config (sample_venv opts_both "py39" v3_9))).
Proof.
  split; [vm_compute; reflexivity|].
  apply (configure_keeps_targets
           (venv_config (sample_venv opts_both "py39" v3_9))
           (Config opts_both true [("py39", allow_all_externals (sample_env "py39" v3_9))])
           w_absent w_absent).
  vm_compute. reflexivity.
Defined.

(** X15: configuring twice.  Without the deprecated alias a second
    [tox_configure] of the configuration that the first returned returns it
    again and changes nothing; with the alias the second one always raises
    the conflict, since the first has filled in the sink. *)
Theorem configure_twice (c c' : config_t) (w w' : world) :
  tox_configure c w = (inr c', w') →
  (print_deps_only (config_option c) = false →
   ∀ w0, tox_configure c' w0 = (inr c', w0))
  ∧ (print_deps_only (config_option c) = true →
     ∀ w0, (tox_configure c' w0).1 = inl (ConfigError msg_print_deps_conflict)).
Proof.
  intros Hrun. split; intros Hd.
  - rewrite (configure_flags_run c w Hd) in Hrun. injection Hrun as <- _.
    intros w0.
    destruct (current_env (config_option c) || truthy (print_deps_to (config_option c)))
      eqn:Hflags.
    + rewrite configure_flags_run by done. cbn. rewrite Hflags. f_equal. f_equal.
      f_equal. rewrite map_map. apply map_ext. by intros [n e].
    + rewrite configure_flags_run by done. by rewrite Hflags.
  - rewrite (configure_alias_run c w Hd) in Hrun.
    destruct (truthy (print_deps_to (config_option c))); [done|].
    injection Hrun as <- _. intros w0.
    rewrite configure_alias_run by done. done.
Qed.

Lemma configure_twice_witness :
  (tox_configure (Config (Options false true (Some Stdout) false) true []) w_absent).1
    = inl (ConfigError msg_print_deps_conflict).
Proof.
  apply (configure_twice (Config (Options false true None false) false [])
           (Config (Options false true (Some Stdout) false) true [])
           w_absent (World (files w_absent) [] [msg_print_deps_only_deprecated])).
  - vm_compute. reflexivity.
  - reflexivity.
Defined.

(** ** The report of installed packages *)

Lemma ascii_compare_trans (a b c : ascii) (o : comparison) :
  Ascii.compare a b = o → Ascii.compare b c = o → Ascii.compare a c = o.
Proof.
  unfold Ascii.compare. intros Hab Hbc. destruct o.
  - apply N.compare_eq_iff in Hab, Hbc. apply N.compare_eq_iff. congruence.
  - apply N.compare_lt_iff in Hab, Hbc. apply N.compare_lt_iff.
    by apply (N.lt_trans _ (N_of_ascii b)).
  - apply N.compare_gt_iff in Hab, Hbc. apply N.compare_gt_iff.
    by apply (N.lt_trans _ (N_of_ascii b)).
Qed.

Lemma string_leb_trans (a b c : string) :
  String.leb a b = true → String.leb b c = true → String.leb a c = true.
Proof.
  unfold String.leb. revert b c.
  induction a as [|x a IH]; intros [|y b] [|z c]; cbn; try done.
  destruct (Ascii.compare x y) eqn:Hxy; [| |done];
    destruct (Ascii.compare y z) eqn:Hyz; try done.
  - rewrite (ascii_compare_trans x y z Eq Hxy Hyz). apply IH.
  - apply Ascii.compare_eq_iff in Hxy as ->. by rewrite Hyz.
  - apply Ascii.compare_eq_iff in Hyz as <-. by rewrite Hxy.
  - by rewrite (ascii_compare_trans x y z Lt Hxy Hyz).
Qed.

Lemma string_ltb_leb (a b : string) : String.ltb a b = true → String.leb a b = true.
Proof. unfold String.ltb, String.leb. by destruct (String.compare a b). Qed.

Lemma string_not_ltb_leb (a b : string) : String.ltb a b = false → String.leb b a = true.
Proof.
  unfold String.ltb, String.leb. rewrite (String.compare_antisym b a).
  by destruct (String.compare a b).
Qed.

Lemma string_ltb_irrefl (a : string) : String.ltb a a = false.
Proof.
  unfold String.ltb. pose proof (String.compare_antisym a a) as H.
  by destruct (String.compare a a).
Qed.

Lemma name_le_trans (a b c : distribution) : name_le a b → name_le b c → name_le a c.
Proof.
  intros (x & y & Hx & Hy & Hxy) (y' & z & Hy' & Hz & Hyz).
  rewrite Hy in Hy'. injection Hy' as <-.
  exists x, z. split; [done|]. split; [done|]. by apply (string_leb_trans x y z).
Qed.

Lemma name_lt_true (e d : distribution) :
  name_lt e d = Some true → name_le e d ∧ dist_name e ≠ dist_name d.
Proof.
  unfold name_lt. destruct (dist_name e) as [x|] eqn:Hx; [|done].
  destruct (dist_name d) as [y|] eqn:Hy; [|done]. intros [= Hlt]. split.
  - exists x, y. by rewrite (string_ltb_leb x y).
  - intros [= ->]. by rewrite string_ltb_irrefl in Hlt.
Qed.

Lemma name_lt_false (e d : distribution) : name_lt e d = Some false → name_le d e.
Proof.
  unfold name_lt. destruct (dist_name e) as [x|] eqn:Hx; [|done].
  destruct (dist_name d) as [y|] eqn:Hy; [|done]. intros [= Hlt].
  exists y, x. by rewrite (string_not_ltb_leb x y).
Qed.

Lemma insert_dist_perm (d : distribution) (l r : list distribution) :
  insert_dist d l = Some r → r ≡ₚ d :: l.
Proof.
  revert r. induction l as [|e rest IH]; intros r; cbn.
  - by intros [= <-].
  - destruct (name_lt e d) as [[|]|]; [| |done].
    + destruct (insert_dist d rest) as [r'|]; [|done]. intros [= <-].
      rewrite (IH r' eq_refl). apply Permutation_swap.
    + by intros [= <-].
Qed.

Lemma insert_dist_sorted (d : distribution) (l r : list distribution) :
  StronglySorted name_le l → insert_dist d l = Some r → StronglySorted name_le r.
Proof.
  revert r. induction l as [|e rest IH]; intros r Hs; cbn.
  - intros [= <-]. by repeat constructor.
  - apply StronglySorted_inv in Hs as [Hrest Hall].
    destruct (name_lt e d) as [[|]|] eqn:Hlt; [| |done].
    + destruct (insert_dist d rest) as [r'|] eqn:Hins; [|done]. intros [= <-].
      constructor; [by apply IH|].
      rewrite (insert_dist_perm d rest r' Hins). constructor; [|done].
      by apply name_lt_true.
    + intros [= <-]. apply name_lt_false in Hlt.
      constructor; [by constructor|]. constructor; [done|].
      eapply Forall_impl; [exact Hall|]. intros e' He'. by apply (name_le_trans d e e').
Qed.

Lemma insert_dist_filter (n : option string) (d : distribution) (l r : list distribution) :
  insert_dist d l = Some r →
  filter (λ x, dist_name x = n) r = filter (λ x, dist_name x = n) (d :: l).
Proof.
  revert r. induction l as [|e rest IH]; intros r; cbn.
  - by intros [= <-].
  - destruct (name_lt e d) as [[|]|] eqn:Hlt; [| |done].
    + destruct (insert_dist d rest) as [r'|] eqn:Hins; [|done]. intros [= <-].
      apply name_lt_true in Hlt as [_ Hne].
      rewrite !filter_cons, (IH r' eq_refl), !filter_cons.
      destruct (decide (dist_name e = n)) as [He|He];
        destruct (decide (dist_name d = n)) as [Hd|Hd]; try done.
      congruence.
    + by intros [= <-].
Qed.

Lemma sorted_by_name_spec (l r : list distribution) :
  sorted_by_name l = Some r →
  r ≡ₚ l ∧ StronglySorted name_le r
  ∧ ∀ n, filter (λ x, dist_name x = n) r = filter (λ x, dist_name x = n) l.
Proof.
  revert r. induction l as [|d rest IH]; intros r; cbn.
  - intros [= <-]. split; [done|]. split; [constructor|done].
  - destruct (sorted_by_name rest) as [r'|]; [|done]. intros Hins.
    destruct (IH r' eq_refl) as (Hperm & Hsorted & Hstable). split; [|split].
    + rewrite (insert_dist_perm d r' r Hins). by constructor.
    + by apply (insert_dist_sorted d r').
    + intros n. rewrite (insert_dist_filter n d r' r Hins), !filter_cons.
      by rewrite Hstable.
Qed.

Lemma insert_dist_named (d : distribution) (l : list distribution) :
  is_Some (dist_name d) → all_named l → is_Some (insert_dist d l).
Proof.
  intros [y Hy] Hall. induction l as [|e rest IH]; cbn; [done|].
  apply Forall_cons in Hall as [[x Hx] Hrest].
  unfold name_lt. rewrite Hx, Hy. destruct (String.ltb x y); [|done].
  by destruct (IH Hrest) as [r ->].
Qed.

Lemma sorted_by_name_named (l : list distribution) :
  all_named l → is_Some (sorted_by_name l).
Proof.
  induction l as [|d rest IH]; cbn; [done|]. intros [Hd Hrest]%Forall_cons.
  destruct (IH Hrest) as [r Hr]. rewrite Hr.
  apply insert_dist_named; [done|]. unfold all_named.
  destruct (sorted_by_name_spec rest r Hr) as (Hperm & _ & _). by rewrite Hperm.
Qed.

Lemma sorted_by_name_all_named (l r : list distribution) :
  sorted_by_name l = Some r → 2 ≤ length l → all_named l.
Proof.
  revert r. induction l as [|d rest IH]; intros r; cbn; [lia|].
  destruct (sorted_by_name rest) as [r'|] eqn:Hr'; [|done]. intros Hins Hlen.
  destruct (sorted_by_name_spec rest r' Hr') as (Hperm & _ & _).
  destruct r' as [|e r''].
  { apply Permutation_nil_l in Hperm. subst rest. simpl in Hlen. lia. }
  cbn in Hins. unfold name_lt in Hins.
  destruct (dist_name e) as [x|] eqn:Hx; [|done].
  destruct (dist_name d) as [y|] eqn:Hy; [|done].
  apply Forall_cons. split; [by rewrite Hy|].
  destruct rest as [|e1 [|e2 rest']].
  - by apply Permutation_nil_r in Hperm.
  - apply Permutation_singleton_r in Hperm. injection Hperm as -> ->.
    apply Forall_cons. split; [by rewrite Hx|constructor].
  - apply (IH (e :: r'') eq_refl). simpl. lia.
Qed.

Lemma sorted_by_name_fails_iff (l : list distribution) :
  sorted_by_name l = None ↔ 2 ≤ length l ∧ ¬ all_named l.
Proof.
  split.
  - intros Hnone. split.
    + destruct l as [|d [|e rest]]; [done|done|simpl; lia].
    + intros Hall. apply sorted_by_name_named in Hall as [r Hr]. congruence.
  - intros [Hlen Hnot]. destruct (sorted_by_name l) as [r|] eqn:Hr; [|done].
    exfalso. apply Hnot. by apply (sorted_by_name_all_named l r).
Qed.

(** X16: when the report hook answers.  [tox_runenvreport] returns [None]
    exactly when neither the current-env flag nor the deprecated
    print-deps-only alias is set, so the sink flag alone leaves the report to
    the host; with one of the two set it raises the sort's [TypeError]
    exactly when there are two or more distributions and one of them has no
    name, and otherwise returns the lines. *)
Theorem report_outcome (distributions : list distribution) (venv : venv_t) :
  (tox_runenvreport distributions venv = ReportNotHandled ↔
     current_env (config_option (venv_config venv)) = false
     ∧ print_deps_only (config_option (venv_config venv)) = false)
  ∧ (tox_runenvreport distributions venv = ReportTypeError ↔
       (current_env (config_option (venv_config venv)) = true
        ∨ print_deps_only (config_option (venv_config venv)) = true)
       ∧ 2 ≤ length distributions
       ∧ ∃ d, d ∈ distributions ∧ dist_name d = None).
Proof.
  assert (Hex : ¬ all_named distributions ↔
                ∃ d, d ∈ distributions ∧ dist_name d = None).
  { unfold all_named. rewrite <- Exists_Forall_neg, Exists_exists.
    - split; intros (d & Hd & Hn); exists d; split; try done.
      + by destruct (dist_name d) as [x|]; [destruct Hn; eauto|].
      + rewrite Hn. by intros [x ?].
    - intros d. destruct (dist_name d); [left; eauto|right; by intros [x ?]]. }
  unfold tox_runenvreport.
  destruct (current_env (config_option (venv_config venv))),
    (print_deps_only (config_option (venv_config venv))); cbn;
    destruct (sorted_by_name distributions) as [r|] eqn:Hr.
  all: split; (split; [try done|]).
  all: try (intros [? ?]; done).
  all: try (intros [[?|?] ?]; done).
  all: try (intros _; split; [auto|]; rewrite <- Hex; by apply sorted_by_name_fails_iff).
  all: intros (_ & Hlen & Hnone); rewrite <- Hex in Hnone;
    assert (sorted_by_name distributions = None) by (by apply sorted_by_name_fails_iff);
    congruence.
Qed.

(** X17: what the report lists.  Whenever [tox_runenvreport] returns lines,
    they are the [name==version] texts of the distributions, every
    distribution exactly once, in non-decreasing order of name, and
    distributions of the same name keep the order in which they were
    given. *)
Theorem report_sorted (distributions : list distribution) (venv : venv_t)
    (lines : list string) :
  tox_runenvreport distributions venv = ReportLines lines →
  ∃ sorted,
    lines = map format_dist sorted
    ∧ sorted ≡ₚ distributions
    ∧ StronglySorted name_le sorted
    ∧ ∀ n, filter (λ d, dist_name d = n) sorted
           = filter (λ d, dist_name d = n) distributions.
Proof.
  unfold tox_runenvreport. destruct (negb _); [done|].
  destruct (sorted_by_name distributions) as [r|] eqn:Hr; [|done].
  intros [= <-]. exists r. split; [done|]. by apply sorted_by_name_spec.
Qed.

Lemma report_sorted_witness :
  ∃ sorted,
    ["pip==23.0"; "pip==9.0"; "six==1.16.0"; "tox==3.28.0"] = map format_dist sorted
    ∧ sorted ≡ₚ sample_dists
    ∧ StronglySorted name_le sorted
    ∧ ∀ n, filter (λ d, dist_name d = n) sorted
           = filter (λ d, dist_name d = n) sample_dists.
Proof.
  apply (report_sorted sample_dists (sample_venv opts_current_env "py39" v3_9)).
  vm_compute. reflexivity.
Defined.

(** ** Provisioning twice is provisioning once *)








(** ** Which exceptions a hook can raise *)

Lemma bind_raises {A B : Type} (kind : exception → bool) (m : M A) (k : A → M B) :
  raises_only kind m → (∀ a, raises_only kind (k a)) → raises_only kind (m ≫= k).
Proof.
  intros Hm Hk w e w'. unfold mbind, M_bind.
  destruct (m w) as [[e0|a] w0] eqn:Hmw.
  - intros [= <- <-]. by apply (Hm w e0 w0).
  - apply Hk.
Qed.

Lemma ret_raises {A : Type} (kind : exception → bool) (a : A) :
  raises_only kind (mret a : M A).
Proof. by intros w e w'. Qed.

Lemma raise_raises {A : Type} (kind : exception → bool) (e : exception) :
  kind e = true → raises_only kind (raise e : M A).
Proof. intros He w e' w'. by intros [= <- <-]. Qed.

Lemma get_fs_raises (kind : exception → bool) : raises_only kind get_fs.
Proof. by intros w e w'. Qed.

Lemma put_fs_raises (kind : exception → bool) (f : filesystem) :
  raises_only kind (put_fs f).
Proof. by intros w e w'. Qed.

Lemma mkdir_raises (p : path) : raises_only is_os_error (mkdir p).
Proof.
  unfold mkdir. apply bind_raises; [apply get_fs_raises|]. intros f.
  destruct (node_at f p); [by apply raise_raises|].
  destruct (node_at f (dirname p)) as [[| | |]|];
    by (apply put_fs_raises || apply raise_raises).
Qed.

Lemma symlink_raises (target link : path) : raises_only is_os_error (symlink target link).
Proof.
  unfold symlink. apply bind_raises; [apply get_fs_raises|]. intros f.
  destruct (node_at f link); [by apply raise_raises|].
  destruct (node_at f (dirname link)) as [[| | |]|];
    by (apply put_fs_raises || apply raise_raises).
Qed.

Lemma mklink_raises (link target : path) :
  raises_only is_os_error (mklink_junction link target).
Proof.
  unfold mklink_junction. apply bind_raises; [apply get_fs_raises|]. intros f.
  destruct (node_at f link); [by apply raise_raises|].
  destruct (node_at f (dirname link)) as [[| | |]|];
    by (apply put_fs_raises || apply raise_raises).
Qed.

Lemma ignoring_file_exists_raises (m : M unit) :
  raises_only is_os_error m → raises_only is_os_error (ignoring_file_exists m).
Proof.
  intros Hm w e w'. unfold ignoring_file_exists.
  destruct (m w) as [[e0|[]] w0] eqn:Hmw; [|done].
  specialize (Hm w e0 w0 Hmw). destruct e0; try done; by intros [= <- <-].
Qed.

Lemma makedirs_rev_raises (rname : list string) :
  raises_only is_os_error (makedirs_rev rname).
Proof.
  induction rname as [|tail rhead IH]; cbn [makedirs_rev]; [apply mkdir_raises|].
  apply bind_raises; [apply get_fs_raises|]. intros f.
  apply bind_raises; [|intros _; apply mkdir_raises].
  destruct (negb _); [by apply ignoring_file_exists_raises|apply ret_raises].
Qed.

Lemma rm_venv_raises (kind : exception → bool) (venv : venv_t) :
  raises_only kind (rm_venv venv).
Proof. intros w e w'. by rewrite rm_venv_run. Qed.

Lemma make_fake_env_raises (rt : runtime) (venv : venv_t) :
  raises_only is_os_error (make_fake_env rt venv).
Proof.
  unfold make_fake_env. apply bind_raises; [apply rm_venv_raises|]. intros _.
  apply bind_raises; [apply makedirs_rev_raises|]. intros _.
  apply bind_raises; [|intros _; apply ret_raises].
  destruct (bool_decide _); [apply mklink_raises|apply symlink_raises].
Qed.

Lemma check_raises (rt : runtime) (config : config_t) (venv : venv_t) :
  raises_only is_config_error (unsupported_raise rt config venv).
Proof.
  unfold unsupported_raise. destruct (recreate _); [apply ret_raises|].
  apply bind_raises; [apply get_fs_raises|]. intros f.
  destruct (negb _ && _); [destruct (has_tox_cleanup rt); by apply raise_raises|].
  destruct (current_env _ && _); [by apply raise_raises|apply ret_raises].
Qed.

Lemma raises_only_weaken {A : Type} (k1 k2 : exception → bool) (m : M A) :
  (∀ e, k1 e = true → k2 e = true) → raises_only k1 m → raises_only k2 m.
Proof. intros Hk Hm w e w' Hrun. apply Hk. by apply (Hm w e w'). Qed.

(** X19: which exceptions the hooks raise.  Without the deprecated alias
    [tox_configure] raises nothing.  The package and dependency-install
    callbacks, and the test-run callback of a run without a print-deps sink
    (where the dependencies are not resolved), raise nothing but
    [ConfigError] and then leave the world as it was.
    [tox_testenv_create] never raises [ConfigError]: it raises
    [InterpreterNotFound] (or its subclass [InterpreterMismatch]), and then
    nothing has been changed, or an error of an operating-system call. *)
Theorem hook_exceptions (rt : runtime) (session : session_t) (venv : venv_t)
    (config : config_t) (w w' : world) (e : exception) :
  (print_deps_only (config_option config) = false →
   tox_configure config w ≠ (inl e, w'))
  ∧ (tox_package rt session venv w = (inl e, w') → is_config_error e = true ∧ w' = w)
  ∧ (tox_testenv_install_deps rt venv w = (inl e, w') →
     is_config_error e = true ∧ w' = w)
  ∧ (print_deps_to (config_option (venv_config venv)) = None →
     tox_runtest rt venv w = (inl e, w') → is_config_error e = true ∧ w' = w)
  ∧ (tox_testenv_create rt venv w = (inl e, w') →
     is_config_error e = false
     ∧ (is_interpreter_not_found e = true ∧ w' = w ∨ is_os_error e = true)).
Proof.
  assert (Hchecked : ∀ {A} (k : unit → M A),
            (∀ a, raises_only (λ _, false) (k a)) →
            (unsupported_raise rt (venv_config venv) venv ≫= k) w = (inl e, w') →
            is_config_error e = true ∧ w' = w).
  { intros A k Hk Hrun.
    destruct (check_outcome rt venv w) as [[e0 Hfail]|Hpass].
    - rewrite (failed_check_stops rt venv w e0) in Hrun by done.
      injection Hrun as <- <-. split; [|done].
      pose proof (unsupported_raise_pure rt (venv_config venv) venv w) as Hpure.
      destruct (unsupported_raise rt (venv_config venv) venv w) as [r w0] eqn:Hr.
      simpl in Hfail, Hpure. subst r w0.
      by apply (check_raises rt (venv_config venv) venv w e0 w).
    - rewrite (passed_check_continues rt venv w) in Hrun by done.
      by apply Hk in Hrun. }
  split; [|split; [|split; [|split]]].
  - intros Halias. unfold tox_configure. run_hook. rewrite Halias.
    by destruct (current_env _ || _).
  - apply Hchecked. intros _. apply ret_raises.
  - apply Hchecked. intros _. destruct (current_env _ || _); apply ret_raises.
  - intros Hs. apply Hchecked. intros _. rewrite Hs. apply ret_raises.
  - unfold tox_testenv_create. run_hook.
    destruct (truthy _ && is_any_env _ _); [done|].
    assert (Hrest : ∀ m : M hook_result, raises_only is_os_error m →
              m w = (inl e, w') →
              is_config_error e = false
              ∧ (is_interpreter_not_found e = true ∧ w' = w ∨ is_os_error e = true)).
    { intros m Hm Hrun. apply Hm in Hrun. split; [by destruct e|by right]. }
    assert (Hbody : raises_only is_os_error
              (if (if truthy (print_deps_to (config_option (venv_config venv)))
                   then true else current_env (config_option (venv_config venv)))
               then make_fake_env rt venv
               else f ← get_fs;
                    (if negb (is_proper_venv f venv) then rm_venv venv else mret tt);;
                    mret NotHandled)).
    { destruct (if truthy _ then true else _); [apply make_fake_env_raises|].
      apply bind_raises; [apply get_fs_raises|]. intros f.
      apply bind_raises; [|intros _; apply ret_raises].
      destruct (negb _); [apply rm_venv_raises|apply ret_raises]. }
    destruct (current_env _).
    + destruct (python_version_info _) as [vi|].
      * destruct (bool_decide _).
        -- intros [= <- <-]. split; [done|]. by left.
        -- apply (Hrest _ Hbody).
      * intros [= <- <-]. split; [done|]. by left.
    + apply (Hrest _ Hbody).
Qed.

Lemma hook_exceptions_witness :
  tox_package rt_linux sample_session (sample_venv opts_regular "py39" v3_9) w_redirect
    = (inl (ConfigError msg_cleanup_unfinished), w_redirect)
  ∧ is_config_error (ConfigError msg_cleanup_unfinished) = true
  ∧ w_redirect = w_redirect.
Proof.
  split; [vm_compute; reflexivity|].
  apply (proj1 (proj2
           (hook_exceptions rt_linux sample_session (sample_venv opts_regular "py39" v3_9)
              (venv_config (sample_venv opts_regular "py39" v3_9)) w_redirect w_redirect
              (ConfigError msg_cleanup_unfinished)))).
  vm_compute. reflexivity.
Defined.
